(** * HealthImaging pixel-data fetcher: frame enumeration, per-frame
      fetch loop and manifest assembly

    Shallow embedding of [MLOps-Pipeline/fetcher_image/fetch.py].

    - JSON documents are the values [json.loads] produces: [None], booleans,
      integers, floats, strings, lists and insertion-ordered dictionaries
      with string keys.
    - Python exceptions are values of [exn]; a computation that may raise
      has type [exn + A] (pure) or [M A] (effectful, threading the world).
    - The outside world (the HealthImaging service behind the boto3 client,
      the operating system, and the library routines the script calls) is
      an [Env]: an interface whose operations may fail and may change a
      hidden state.  The files of the disk are an explicit finite map from
      path strings to contents, and every effectful call is recorded, in
      order, in a trace.
    - Logging has no influence on any result and is left out. *)

From Stdlib Require Import ZArith String Ascii List Bool Lia.
From Stdlib Require Import Init.Byte Floats.SpecFloat.
From stdpp Require Import base strings pretty gmap list.

Import ListNotations.
Local Open Scope string_scope.
Local Open Scope Z_scope.
Local Open Scope list_scope.

(* ===================================================================== *)
(** ** JSON values *)
(* ===================================================================== *)

#[warnings="-register-all"]
Inductive json : Type :=
| JNull
| JBool (b : bool)
| JInt (n : Z)
| JFloat (f : spec_float)
| JStr (s : string)
| JList (items : list json)
| JDict (items : list (string * json)).

(** Python truthiness, as tested by [if frame_id:]. *)
Definition truthy (v : json) : bool :=
  match v with
  | JNull => false
  | JBool b => b
  | JInt n => negb (n =? 0)
  | JFloat (S754_zero _) => false
  | JFloat _ => true
  | JStr s => negb (String.eqb s "")
  | JList [] => false
  | JList _ => true
  | JDict [] => false
  | JDict _ => true
  end.

(** [type(v).__name__] *)
Definition py_type_name (v : json) : string :=
  match v with
  | JNull => "NoneType"
  | JBool _ => "bool"
  | JInt _ => "int"
  | JFloat _ => "float"
  | JStr _ => "str"
  | JList _ => "list"
  | JDict _ => "dict"
  end.

(* ===================================================================== *)
(** ** Exceptions *)
(* ===================================================================== *)

(** [exn_message] is what [str(e)] returns.  [exn_is_Exception] tells
    whether the class derives from [Exception]; [KeyboardInterrupt] and
    [SystemExit] do not, and [except Exception] lets them through. *)
Record exn : Type := Exn {
  exn_class : string;
  exn_message : string;
  exn_is_Exception : bool
}.

Definition AttributeError (v : json) (attr : string) : exn :=
  Exn "AttributeError"
      ("'" +:+ py_type_name v +:+ "' object has no attribute '" +:+ attr +:+ "'")
      true.

Definition TypeError_not_iterable (v : json) : exn :=
  Exn "TypeError" ("'" +:+ py_type_name v +:+ "' object is not iterable") true.

(** The error monad of pure code. *)
Definition bind_exn {A B : Type} (m : exn + A) (k : A -> exn + B) : exn + B :=
  match m with
  | inl e => inl e
  | inr a => k a
  end.

Notation "'let*' x ':=' m 'in' k" := (bind_exn m (fun x => k))
  (at level 10, x pattern, m at level 100, k at level 200).

(* ===================================================================== *)
(** ** Dictionaries and iteration *)
(* ===================================================================== *)

Fixpoint dict_lookup (d : list (string * json)) (key : string) : option json :=
  match d with
  | [] => None
  | (k, v) :: rest => if String.eqb k key then Some v else dict_lookup rest key
  end.

(** [d[key] = v]: replaces in place when the key is there, appends
    otherwise (insertion order). *)
Fixpoint dict_set (d : list (string * json)) (key : string) (v : json)
  : list (string * json) :=
  match d with
  | [] => [(key, v)]
  | (k, v0) :: rest =>
      if String.eqb k key then (k, v) :: rest else (k, v0) :: dict_set rest key v
  end.

Definition has_key (v : json) (key : string) : bool :=
  match v with
  | JDict d => match dict_lookup d key with Some _ => true | None => false end
  | _ => false
  end.

(** [v.get(key, default)]; only dictionaries have a [get] method. *)
Definition py_get (v : json) (key : string) (default : json) : exn + json :=
  match v with
  | JDict d => inr (match dict_lookup d key with Some x => x | None => default end)
  | _ => inl (AttributeError v "get")
  end.

(** [v.items()] *)
Definition py_items (v : json) : exn + list (string * json) :=
  match v with
  | JDict d => inr d
  | _ => inl (AttributeError v "items")
  end.

Fixpoint string_chars (s : string) : list json :=
  match s with
  | EmptyString => []
  | String c rest => JStr (String c EmptyString) :: string_chars rest
  end.

(** The elements [for x in v] visits: the items of a list, the keys of a
    dictionary, the characters of a string; anything else is not iterable. *)
Definition py_iter (v : json) : exn + list json :=
  match v with
  | JList l => inr l
  | JDict d => inr (map (fun kv => JStr (fst kv)) d)
  | JStr s => inr (string_chars s)
  | _ => inl (TypeError_not_iterable v)
  end.

(* ===================================================================== *)
(** ** Frame enumeration: [extract_frame_ids] *)
(* ===================================================================== *)

(** The dictionary [{"frameId": .., "seriesId": .., "instanceId": ..}]
    built at lines 76-80.  The two parent identifiers are dictionary keys
    of the document, hence strings; the frame identifier is whatever value
    the document holds under ["ID"]. *)
Record FrameInfo : Type := MkFrameInfo {
  frameId : json;
  seriesId : string;
  instanceId : string
}.

(** [for frame in image_frames:] (lines 73-80), [frame_ids] being the
    list appended to. *)
Fixpoint frames_loop (series_id instance_id : string) (image_frames : list json)
    (frame_ids : list FrameInfo) : exn + list FrameInfo :=
  match image_frames with
  | [] => inr frame_ids
  | frame :: rest =>
      let* frame_id := py_get frame "ID" JNull in
      let frame_ids :=
        if truthy frame_id
        then frame_ids ++ [MkFrameInfo frame_id series_id instance_id]
        else frame_ids in
      frames_loop series_id instance_id rest frame_ids
  end.

(** [for instance_id, instance_data in instances.items():] (lines 71-80) *)
Fixpoint instances_loop (series_id : string) (instances : list (string * json))
    (frame_ids : list FrameInfo) : exn + list FrameInfo :=
  match instances with
  | [] => inr frame_ids
  | (instance_id, instance_data) :: rest =>
      let* image_frames := py_get instance_data "ImageFrames" (JList []) in
      let* frames := py_iter image_frames in
      let* frame_ids := frames_loop series_id instance_id frames frame_ids in
      instances_loop series_id rest frame_ids
  end.

(** [for series_id, series_data in series_dict.items():] (lines 69-80) *)
Fixpoint series_loop (series : list (string * json)) (frame_ids : list FrameInfo)
  : exn + list FrameInfo :=
  match series with
  | [] => inr frame_ids
  | (series_id, series_data) :: rest =>
      let* instances := py_get series_data "Instances" (JDict []) in
      let* instance_items := py_items instances in
      let* frame_ids := instances_loop series_id instance_items frame_ids in
      series_loop rest frame_ids
  end.

Definition extract_frame_ids (metadata : json) : exn + list FrameInfo :=
  let* study := py_get metadata "Study" (JDict []) in
  let* series_dict := py_get study "Series" (JDict []) in
  let* series := py_items series_dict in
  series_loop series [].

(* ===================================================================== *)
(** ** Python slices and [--max-frames] *)
(* ===================================================================== *)

(** [l[:stop]]: a negative [stop] counts from the end; the bound is
    clipped to the length of the list. *)
Definition py_slice_to {A : Type} (l : list A) (stop : Z) : list A :=
  let len := Z.of_nat (length l) in
  let stop' := if stop <? 0 then Z.max 0 (stop + len) else Z.min stop len in
  firstn (Z.to_nat stop') l.

(** Lines 177-179. *)
Definition limit_frames (max_frames : Z) (frame_ids : list FrameInfo)
  : list FrameInfo :=
  if 0 <? max_frames then py_slice_to frame_ids max_frames else frame_ids.

(* ===================================================================== *)
(** ** Paths ([pathlib.PurePosixPath]) *)
(* ===================================================================== *)

(** A path is its root (empty, ["/"] or ["//"]) and its components. *)
Record Path : Type := MkPath {
  path_root : string;
  path_parts : list string
}.

Definition slash : ascii := "/"%char.

(** [s.split("/")] *)
Fixpoint split_slash (s : string) : list string :=
  match s with
  | EmptyString => [EmptyString]
  | String c rest =>
      if Ascii.eqb c slash then EmptyString :: split_slash rest
      else match split_slash rest with
           | [] => [String c EmptyString]
           | w :: ws => String c w :: ws
           end
  end.

Fixpoint leading_slashes (s : string) : nat :=
  match s with
  | String c rest => if Ascii.eqb c slash then S (leading_slashes rest) else O
  | EmptyString => O
  end.

Definition is_component (c : string) : bool :=
  negb (String.eqb c "") && negb (String.eqb c ".").

(** [Path(s)]: exactly two leading slashes are kept as the root ["//"],
    any other number of them is the root ["/"]; empty components and
    ["."] are dropped, [".."] is kept. *)
Definition parse_path (s : string) : Path :=
  {| path_root := match leading_slashes s with
                  | O => ""
                  | 2%nat => "//"
                  | _ => "/"
                  end;
     path_parts := List.filter is_component (split_slash s) |}.

(** [p / s]: an absolute right operand replaces the left one. *)
Definition path_join (p : Path) (s : string) : Path :=
  let q := parse_path s in
  if String.eqb (path_root q) ""
  then {| path_root := path_root p; path_parts := path_parts p ++ path_parts q |}
  else q.

(** [p.name] *)
Definition path_name (p : Path) : string := List.last (path_parts p) "".

(** [p.parent] *)
Definition path_parent (p : Path) : Path :=
  {| path_root := path_root p; path_parts := removelast (path_parts p) |}.

Fixpoint join_slash (parts : list string) : string :=
  match parts with
  | [] => ""
  | [c] => c
  | c :: rest => c +:+ "/" +:+ join_slash rest
  end.

(** [str(p)], the name under which the operating system sees the file. *)
Definition path_str (p : Path) : string :=
  match path_parts p with
  | [] => if String.eqb (path_root p) "" then "." else path_root p
  | parts => path_root p +:+ join_slash parts
  end.

(* ===================================================================== *)
(** ** The outside world *)
(* ===================================================================== *)

(** What a file holds: the bytes written in binary mode, the text written
    in text mode, or an unspecified part of it when a write was cut short
    by an error. *)
Inductive file : Type :=
| FBytes (data : list Byte.byte)
| FText (text : string)
| FPartial.

(** The collaborators of the script.  Each operation that can touch the
    network or the disk takes the hidden state of the environment and
    returns its outcome with the next state; library routines that only
    compute are functions. *)
Record Env : Type := MkEnv {
  env_state : Type;
  (** [os.environ.get("AWS_REGION")] *)
  environ_AWS_REGION : option string;
  (** [boto3.client("medical-imaging", region_name=.., config=..)] *)
  boto3_client : string -> env_state -> option exn * env_state;
  (** [client.get_image_set_metadata(..)["imageSetMetadataBlob"].read()] *)
  client_get_image_set_metadata :
    string -> string -> env_state -> (exn + list Byte.byte) * env_state;
  (** [client.get_image_frame(..)["imageFrameBlob"].read()] *)
  client_get_image_frame :
    string -> string -> json -> env_state -> (exn + list Byte.byte) * env_state;
  gzip_decompress : list Byte.byte -> exn + list Byte.byte;
  bytes_decode_utf8 : list Byte.byte -> exn + string;
  json_loads : string -> exn + json;
  (** [json.dumps(v, indent=2)], the text [json.dump(v, f, indent=2)] writes *)
  json_dumps : json -> string;
  (** [str(v)] for a value that is not a string *)
  py_str : json -> string;
  (** [Path.mkdir(parents=True, exist_ok=True)] *)
  os_mkdir : string -> env_state -> option exn * env_state;
  (** [open(path, mode)] for writing: creates or truncates the file *)
  os_open : string -> env_state -> option exn * env_state;
  (** writing the content and closing the file *)
  os_write : string -> env_state -> option exn * env_state
}.

Inductive event : Type :=
| EvMkdir (path : string)
| EvClient (region_name : string)
| EvGetImageSetMetadata (datastore_id image_set_id : string)
| EvGetImageFrame (datastore_id image_set_id : string) (frame_id : json)
| EvOpen (path : string)
| EvWrite (path : string) (content : file).

Record world (E : Env) : Type := MkWorld {
  hidden : env_state E;
  files : gmap string file;
  trace : list event
}.
Arguments MkWorld {E} _ _ _.
Arguments hidden {E} _.
Arguments files {E} _.
Arguments trace {E} _.

(** Effectful code: may raise, and changes the world either way. *)
Definition M (E : Env) (A : Type) : Type := world E -> (exn + A) * world E.

Definition ret {E : Env} {A : Type} (a : A) : M E A := fun w => (inr a, w).

Definition raise {E : Env} {A : Type} (e : exn) : M E A := fun w => (inl e, w).

Definition bind {E : Env} {A B : Type} (m : M E A) (k : A -> M E B) : M E B :=
  fun w =>
    match m w with
    | (inl e, w') => (inl e, w')
    | (inr a, w') => k a w'
    end.

Definition lift {E : Env} {A : Type} (r : exn + A) : M E A := fun w => (r, w).

Notation "'let!' x ':=' m 'in' k" := (bind m (fun x => k))
  (at level 10, x pattern, m at level 100, k at level 200).

(** [try: body except Exception as e: handler(e)] *)
Definition try_except {E : Env} {A : Type} (body : M E A) (handler : exn -> M E A)
  : M E A :=
  fun w =>
    match body w with
    | (inl e, w') => if exn_is_Exception e then handler e w' else (inl e, w')
    | (inr a, w') => (inr a, w')
    end.

Definition log_event {E : Env} (ev : event) : M E unit :=
  fun w => (inr tt, MkWorld (hidden w) (files w) (trace w ++ [ev])).

(** Runs an operation of the environment on the hidden state. *)
Definition env_call {E : Env} {A : Type}
    (op : env_state E -> (exn + A) * env_state E) : M E A :=
  fun w => let '(r, h) := op (hidden w) in (r, MkWorld h (files w) (trace w)).

Definition env_check {E : Env}
    (op : env_state E -> option exn * env_state E) : M E unit :=
  env_call (fun h => let '(r, h') := op h in
                     (match r with Some e => inl e | None => inr tt end, h')).

Definition set_file {E : Env} (path : string) (content : file) : M E unit :=
  fun w => (inr tt, MkWorld (hidden w) (<[path := content]> (files w)) (trace w)).

(* ===================================================================== *)
(** ** The script *)
(* ===================================================================== *)

(** The parsed command line ([argparse], lines 122-152). *)
Record Args : Type := MkArgs {
  datastore_id : string;
  image_set_id : string;
  output_dir : string;
  max_frames : Z;
  region : option string
}.

(** The [manifest] dictionary of lines 182-187; [manifest_json] is the
    dictionary itself, as handed to [json.dump]. *)
Record Manifest : Type := MkManifest {
  m_datastoreId : string;
  m_imageSetId : string;
  m_totalFrames : Z;
  m_frames : list json
}.

Definition manifest_json (m : Manifest) : json :=
  JDict [("datastoreId", JStr (m_datastoreId m));
         ("imageSetId", JStr (m_imageSetId m));
         ("totalFrames", JInt (m_totalFrames m));
         ("frames", JList (m_frames m))].

(** [manifest["frames"].append(entry)] *)
Definition append_frame (m : Manifest) (entry : json) : Manifest :=
  {| m_datastoreId := m_datastoreId m;
     m_imageSetId := m_imageSetId m;
     m_totalFrames := m_totalFrames m;
     m_frames := m_frames m ++ [entry] |}.

(** The items [**frame_info] spreads into a new dictionary. *)
Definition frame_info_items (frame_info : FrameInfo) : list (string * json) :=
  [("frameId", frameId frame_info);
   ("seriesId", JStr (seriesId frame_info));
   ("instanceId", JStr (instanceId frame_info))].

Section Script.
Context {E : Env}.

(** A replacement field [{v}] of an f-string. *)
Definition format_value (v : json) : string :=
  match v with
  | JStr s => s
  | _ => py_str E v
  end.

(** Writing the content and closing the file; an error leaves an
    unspecified part of the content behind. *)
Definition write_and_close (path : string) (content : file) : M E unit :=
  fun w =>
    let '(r, h) := os_write E path (hidden w) in
    match r with
    | Some e => (inl e, MkWorld h (<[path := FPartial]> (files w)) (trace w))
    | None => (inr tt, MkWorld h (<[path := content]> (files w)) (trace w))
    end.

(** [with open(path, mode) as f: f.write(content)]; a successful [open]
    leaves the file empty. *)
Definition write_file (path : string) (content : file) : M E unit :=
  let! _ := log_event (EvOpen path) in
  let! _ := env_check (os_open E path) in
  let! _ := set_file path (match content with
                           | FText _ => FText EmptyString
                           | _ => FBytes []
                           end) in
  let! _ := log_event (EvWrite path content) in
  write_and_close path content.

(** Lines 31-42.  [region or os.environ.get("AWS_REGION", "us-east-1")] *)
Definition get_medical_imaging_client (region : option string) : M E unit :=
  let region_name :=
    match region with
    | Some r => if String.eqb r "" then default "us-east-1" (environ_AWS_REGION E)
                else r
    | None => default "us-east-1" (environ_AWS_REGION E)
    end in
  let! _ := log_event (EvClient region_name) in
  env_check (boto3_client E region_name).

(** Lines 45-58. *)
Definition get_image_set_metadata (datastore_id image_set_id : string)
  : M E json :=
  let! _ := log_event (EvGetImageSetMetadata datastore_id image_set_id) in
  let! metadata_blob :=
    env_call (client_get_image_set_metadata E datastore_id image_set_id) in
  let! raw := lift (gzip_decompress E metadata_blob) in
  let! metadata_json := lift (bytes_decode_utf8 E raw) in
  lift (json_loads E metadata_json).

(** Lines 86-98. *)
Definition fetch_image_frame (datastore_id image_set_id : string) (frame_id : json)
  : M E (list Byte.byte) :=
  let! _ := log_event (EvGetImageFrame datastore_id image_set_id frame_id) in
  env_call (client_get_image_frame E datastore_id image_set_id frame_id).

(** The f-string of line 104. *)
Definition frame_filename (frame_info : FrameInfo) : string :=
  seriesId frame_info +:+ "_" +:+ instanceId frame_info +:+ "_"
  +:+ format_value (frameId frame_info) +:+ ".htj2k".

(** Lines 101-110. *)
Definition save_frame (frame_data : list Byte.byte) (output_path : Path)
    (frame_info : FrameInfo) : M E Path :=
  let filename := frame_filename frame_info in
  let filepath := path_join output_path filename in
  let! _ := write_file (path_str filepath) (FBytes frame_data) in
  ret filepath.

(** Lines 113-118. *)
Definition save_manifest (output_path : Path) (manifest_data : json) : M E unit :=
  let manifest_path := path_join output_path "manifest.json" in
  write_file (path_str manifest_path) (FText (json_dumps E manifest_data)).

(** The dictionary appended at lines 202-206. *)
Definition success_record (frame_info : FrameInfo) (filepath : Path)
    (frame_data : list Byte.byte) : json :=
  JDict (dict_set
           (dict_set (frame_info_items frame_info)
                     "filename" (JStr (path_name filepath)))
           "size" (JInt (Z.of_nat (length frame_data)))).

(** The dictionary appended at lines 210-213. *)
Definition error_record (frame_info : FrameInfo) (e : exn) : json :=
  JDict (dict_set (frame_info_items frame_info) "error" (JStr (exn_message e))).

(** The body of the [try] block, lines 191-206. *)
Definition try_frame (args : Args) (output_path : Path) (frame_info : FrameInfo)
    (manifest : Manifest) : M E Manifest :=
  let! frame_data :=
    fetch_image_frame (datastore_id args) (image_set_id args)
                      (frameId frame_info) in
  let! filepath := save_frame frame_data output_path frame_info in
  ret (append_frame manifest (success_record frame_info filepath frame_data)).

(** One iteration of the loop: the [try] block with its handler,
    lines 190-213. *)
Definition process_frame (args : Args) (output_path : Path)
    (frame_info : FrameInfo) (manifest : Manifest) : M E Manifest :=
  try_except
    (try_frame args output_path frame_info manifest)
    (fun e => ret (append_frame manifest (error_record frame_info e))).

(** [for i, frame_info in enumerate(frame_ids):], lines 189-213. *)
Fixpoint fetch_loop (args : Args) (output_path : Path)
    (frame_ids : list FrameInfo) (manifest : Manifest) : M E Manifest :=
  match frame_ids with
  | [] => ret manifest
  | frame_info :: rest =>
      let! manifest := process_frame args output_path frame_info manifest in
      fetch_loop args output_path rest manifest
  end.

(** [main], lines 154-163: the output directory and the client. *)
Definition main_setup (args : Args) : M E Path :=
  let output_path := parse_path (output_dir args) in
  let! _ := log_event (EvMkdir (path_str output_path)) in
  let! _ := env_check (os_mkdir E (path_str output_path)) in
  let! _ := get_medical_imaging_client (region args) in
  ret output_path.

(** [main], lines 165-172: the metadata document and its copy on disk. *)
Definition main_metadata (args : Args) (output_path : Path) : M E json :=
  let! metadata :=
    get_image_set_metadata (datastore_id args) (image_set_id args) in
  let metadata_path := path_join output_path "metadata.json" in
  let! _ := write_file (path_str metadata_path)
                       (FText (json_dumps E metadata)) in
  ret metadata.

(** [main], lines 174-213: enumeration, truncation and the loop. *)
Definition main_frames (args : Args) (output_path : Path) (metadata : json)
  : M E Manifest :=
  let! frame_ids := lift (extract_frame_ids metadata) in
  let frame_ids := limit_frames (max_frames args) frame_ids in
  let manifest :=
    {| m_datastoreId := datastore_id args;
       m_imageSetId := image_set_id args;
       m_totalFrames := Z.of_nat (length frame_ids);
       m_frames := [] |} in
  fetch_loop args output_path frame_ids manifest.

(** Lines 152-219. *)
Definition main (args : Args) : M E Z :=
  let! output_path := main_setup args in
  let! metadata := main_metadata args output_path in
  let! manifest := main_frames args output_path metadata in
  let! _ := save_manifest output_path (manifest_json manifest) in
  ret 0.

(** The exit status of the interpreter when the exception [e] escapes
    [main].  An [Exception] is reported with its traceback and the status
    is 1.  For any other exception the status comes from the exception
    itself and from the platform: the code a [SystemExit] carries (0 for
    [SystemExit()]), death by SIGINT, seen as 130, for a
    [KeyboardInterrupt].  The record [exn] does not hold that much, so
    this part is the function [interpreter_status]. *)
Definition uncaught_status (interpreter_status : exn -> Z) (e : exn) : Z :=
  if exn_is_Exception e then 1 else interpreter_status e.

(** [sys.exit(main())], lines 222-223: the exit status of the process
    and the world it leaves. *)
Definition run_main (interpreter_status : exn -> Z) (args : Args) (w : world E)
  : Z * world E :=
  match main args w with
  | (inr status, w') => (status, w')
  | (inl e, w') => (uncaught_status interpreter_status e, w')
  end.

End Script.

(* ===================================================================== *)
(** ** The document as the specification reads it *)
(* ===================================================================== *)

(** The value under [key] in a dictionary, [None] when it is missing. *)
Definition child (v : json) (key : string) : json :=
  match v with
  | JDict d => match dict_lookup d key with Some x => x | None => JNull end
  | _ => JNull
  end.

Definition dict_items (v : json) : list (string * json) :=
  match v with JDict d => d | _ => [] end.

Definition list_items (v : json) : list json :=
  match v with JList l => l | _ => [] end.

(** Study -> series -> instances -> frame references. *)
Definition document_series (metadata : json) : list (string * json) :=
  dict_items (child (child metadata "Study") "Series").

Definition series_instances (series_data : json) : list (string * json) :=
  dict_items (child series_data "Instances").

Definition instance_frames (instance_data : json) : list json :=
  list_items (child instance_data "ImageFrames").

Definition sum_nat (l : list nat) : nat := fold_right Nat.add O l.

(** The number of frame reference entries of the document: the sum, over
    all series and all their instances, of the length of [ImageFrames]. *)
Definition frame_reference_count (metadata : json) : nat :=
  sum_nat (map (fun s =>
             sum_nat (map (fun i => length (instance_frames (snd i)))
                          (series_instances (snd s))))
           (document_series metadata)).

(** The descriptors of the frame references whose ["ID"] is truthy, in
    document order. *)
Definition described_frames_of_instance (series_id instance_id : string)
    (frames : list json) : list FrameInfo :=
  flat_map (fun frame =>
              if truthy (child frame "ID")
              then [MkFrameInfo (child frame "ID") series_id instance_id]
              else [])
           frames.

Definition described_frames_of_series (series_id : string)
    (instances : list (string * json)) : list FrameInfo :=
  flat_map (fun i => described_frames_of_instance series_id (fst i)
                       (instance_frames (snd i)))
           instances.

Definition described_frames (metadata : json) : list FrameInfo :=
  flat_map (fun s => described_frames_of_series (fst s) (series_instances (snd s)))
           (document_series metadata).

(** Well-formed documents (the data model): every level that is present
    is a dictionary, [ImageFrames] is a list, and every frame reference
    is a dictionary carrying a non-empty string identifier.  A missing
    level stands for no children. *)
Definition absent_or (ok : json -> bool) (d : list (string * json)) (key : string)
  : bool :=
  match dict_lookup d key with
  | None => true
  | Some v => ok v
  end.

Definition frame_reference_ok (frame : json) : bool :=
  match frame with
  | JDict d => match dict_lookup d "ID" with
               | Some (JStr s) => negb (String.eqb s "")
               | _ => false
               end
  | _ => false
  end.

Definition instance_ok (instance_data : json) : bool :=
  match instance_data with
  | JDict d => absent_or (fun v => match v with
                                   | JList l => forallb frame_reference_ok l
                                   | _ => false
                                   end) d "ImageFrames"
  | _ => false
  end.

Definition series_ok (series_data : json) : bool :=
  match series_data with
  | JDict d => absent_or (fun v => match v with
                                   | JDict l => forallb (fun i => instance_ok (snd i)) l
                                   | _ => false
                                   end) d "Instances"
  | _ => false
  end.

Definition study_ok (study : json) : bool :=
  match study with
  | JDict d => absent_or (fun v => match v with
                                   | JDict l => forallb (fun s => series_ok (snd s)) l
                                   | _ => false
                                   end) d "Series"
  | _ => false
  end.

Definition well_formed (metadata : json) : bool :=
  match metadata with
  | JDict d => absent_or study_ok d "Study"
  | _ => false
  end.

(* ===================================================================== *)
(** ** Manifest entries *)
(* ===================================================================== *)

Definition is_success_record (r : json) : bool :=
  has_key r "filename" && has_key r "size" && negb (has_key r "error").

Definition is_error_record (r : json) : bool :=
  has_key r "error" && negb (has_key r "filename").

(** The entry carries the three fields of the descriptor. *)
Definition describes (r : json) (frame_info : FrameInfo) : Prop :=
  py_get r "frameId" JNull = inr (frameId frame_info)
  /\ py_get r "seriesId" JNull = inr (JStr (seriesId frame_info))
  /\ py_get r "instanceId" JNull = inr (JStr (instanceId frame_info)).

(** One manifest entry for one descriptor: a success record or an error
    record, never both, never neither. *)
Definition entry_for (frame_info : FrameInfo) (r : json) : Prop :=
  describes r frame_info
  /\ xorb (is_success_record r) (is_error_record r) = true.

(** [json.load(open(path))] *)
Definition read_json {E : Env} (w : world E) (path : string) : exn + json :=
  match files w !! path with
  | Some (FText text) => json_loads E text
  | _ => inl (Exn "OSError" "cannot read the file as text" true)
  end.

Fixpoint contains_slash (s : string) : bool :=
  match s with
  | EmptyString => false
  | String c rest => Ascii.eqb c slash || contains_slash rest
  end.

(** The last character of a string. *)
Fixpoint string_last (s : string) : option ascii :=
  match s with
  | EmptyString => None
  | String c EmptyString => Some c
  | String _ rest => string_last rest
  end.

(* ===================================================================== *)
(** ** Relations between the world before and after a step *)
(* ===================================================================== *)

(** Every run of [m] takes a world to one related to it by [R], whether
    it returns or raises. *)
Definition stable {E : Env} {A : Type} (R : world E -> world E -> Prop)
    (m : M E A) : Prop :=
  forall w r w', m w = (r, w') -> R w w'.

(** The file at [path] is untouched and the trace only grows. *)
Definition keeps {E : Env} (path : string) (w w' : world E) : Prop :=
  files w' !! path = files w !! path
  /\ exists later, trace w' = trace w ++ later.

(** Metadata resolution fails with [e]: the remote call, the
    decompression, the decoding or the parsing raises it. *)
Definition metadata_resolution_raises {E : Env} (datastore_id image_set_id : string)
    (w : world E) (e : exn) : Prop :=
  match fst (client_get_image_set_metadata E datastore_id image_set_id (hidden w)) with
  | inl e' => e' = e
  | inr blob =>
      match gzip_decompress E blob with
      | inl e' => e' = e
      | inr raw =>
          match bytes_decode_utf8 E raw with
          | inl e' => e' = e
          | inr text => json_loads E text = inl e
          end
      end
  end.

(** A run from [w] gets through the per-frame loop: the set-up, the
    metadata phase and the loop return, the loop leaving [manifest] and
    the world [w4]. *)
Definition loop_completes {E : Env} (args : Args) (w : world E)
    (output_path : Path) (metadata : json) (manifest : Manifest) (w4 : world E)
  : Prop :=
  exists w1 w3,
    main_setup args w = (inr output_path, w1)
    /\ main_metadata args output_path w1 = (inr metadata, w3)
    /\ main_frames args output_path metadata w3 = (inr manifest, w4).



(** What CPython on a POSIX system does with the two exceptions outside
    [Exception] that the scripted environments below raise: a
    [KeyboardInterrupt] ends the process by SIGINT (status 130), a
    [SystemExit()] without a code ends it with status 0. *)
Definition posix_status (e : exn) : Z :=
  if String.eqb (exn_class e) "KeyboardInterrupt" then 130
  else if String.eqb (exn_class e) "SystemExit" then 0
  else 1.

(* ===================================================================== *)
(** ** A scripted environment *)
(* ===================================================================== *)

(** A test double of the collaborators, used to run the script on
    concrete inputs.  The service holds one metadata document (or fails to
    deliver it) and refuses the frames listed in [sc_bad_frames]; the disk
    refuses to open the paths listed in [sc_bad_paths]; the parser knows
    the documents listed in [sc_documents].  The hidden state counts the
    calls made to the service. *)
Record Scenario : Type := MkScenario {
  sc_metadata : exn + json;
  sc_bad_frames : list string;
  sc_bad_paths : list string;
  sc_documents : list json
}.

(** A compact rendering of a document, good enough to tell the documents
    of a scenario apart. *)
Fixpoint render (v : json) : string :=
  match v with
  | JNull => "null"
  | JBool true => "true"
  | JBool false => "false"
  | JInt n => pretty n
  | JFloat _ => "float"
  | JStr s => "<" +:+ s +:+ ">"
  | JList l =>
      "[" +:+ (fix go (l : list json) : string :=
                 match l with
                 | [] => "]"
                 | x :: rest => render x +:+ "," +:+ go rest
                 end) l
  | JDict d =>
      "{" +:+ (fix go (d : list (string * json)) : string :=
                 match d with
                 | [] => "}"
                 | (k, x) :: rest => k +:+ ":" +:+ render x +:+ "," +:+ go rest
                 end) d
  end.

Fixpoint parse_known (docs : list json) (text : string) : exn + json :=
  match docs with
  | [] => inl (Exn "JSONDecodeError" "Expecting value" true)
  | doc :: rest =>
      if String.eqb (render doc) text then inr doc else parse_known rest text
  end.

Definition string_in (s : string) (l : list string) : bool :=
  existsb (String.eqb s) l.

Definition scripted (sc : Scenario) : Env :=
  {| env_state := nat;
     environ_AWS_REGION := None;
     boto3_client := fun _ calls => (None, calls);
     client_get_image_set_metadata := fun _ _ calls =>
       (match sc_metadata sc with
        | inl e => inl e
        | inr doc => inr (list_byte_of_string (render doc))
        end, S calls);
     client_get_image_frame := fun _ _ frame_id calls =>
       (match frame_id with
        | JStr s =>
            if string_in s (sc_bad_frames sc)
            then inl (Exn "ResourceNotFoundException" "frame not found" true)
            else inr (list_byte_of_string s)
        | _ => inl (Exn "ParamValidationError" "invalid type for imageFrameId" true)
        end, S calls);
     gzip_decompress := fun blob => inr blob;
     bytes_decode_utf8 := fun raw => inr (string_of_list_byte raw);
     json_loads := parse_known (sc_documents sc);
     json_dumps := render;
     py_str := render;
     os_mkdir := fun _ calls => (None, calls);
     os_open := fun path calls =>
       (if string_in path (sc_bad_paths sc)
        then Some (Exn "OSError" "No space left on device" true)
        else None, calls);
     os_write := fun _ calls => (None, calls) |}.

Definition initial_world (sc : Scenario) : world (scripted sc) :=
  MkWorld (O : env_state (scripted sc)) ∅ [].

Definition frame_reference (id : string) : json := JDict [("ID", JStr id)].

(** One series, one instance, three frames. *)
Definition three_frames : json :=
  JDict [("Study", JDict [("Series", JDict [("s1", JDict [("Instances",
    JDict [("i1", JDict [("ImageFrames",
      JList [frame_reference "f1"; frame_reference "f2"; frame_reference "f3"])])])])])])].

(** As [three_frames], the second frame reference having an empty
    identifier. *)
Definition empty_identifier : json :=
  JDict [("Study", JDict [("Series", JDict [("s1", JDict [("Instances",
    JDict [("i1", JDict [("ImageFrames",
      JList [frame_reference "f1"; frame_reference ""; frame_reference "f3"])])])])])])].

(** One frame under a series whose identifier is an absolute path. *)
Definition absolute_series : json :=
  JDict [("Study", JDict [("Series", JDict [("/tmp/s1", JDict [("Instances",
    JDict [("i1", JDict [("ImageFrames", JList [frame_reference "f1"])])])])])])].

(** The manifest a run over [three_frames] writes when the service
    refuses the frame [f2]. *)
Definition expected_manifest : json :=
  JDict [("datastoreId", JStr "ds"); ("imageSetId", JStr "is");
         ("totalFrames", JInt 3);
         ("frames", JList [
            JDict [("frameId", JStr "f1"); ("seriesId", JStr "s1");
                   ("instanceId", JStr "i1");
                   ("filename", JStr "s1_i1_f1.htj2k"); ("size", JInt 2)];
            JDict [("frameId", JStr "f2"); ("seriesId", JStr "s1");
                   ("instanceId", JStr "i1");
                   ("error", JStr "frame not found")];
            JDict [("frameId", JStr "f3"); ("seriesId", JStr "s1");
                   ("instanceId", JStr "i1");
                   ("filename", JStr "s1_i1_f3.htj2k"); ("size", JInt 2)]])].

Definition expected_run : Manifest :=
  {| m_datastoreId := "ds"; m_imageSetId := "is"; m_totalFrames := 3;
     m_frames := list_items (child expected_manifest "frames") |}.

(** The service refuses the frame [f2]. *)
Definition second_frame_fails : Scenario :=
  MkScenario (inr three_frames) ["f2"] [] [three_frames; expected_manifest].


(** The service does not know the image set. *)
Definition metadata_call_fails : Scenario :=
  MkScenario (inl (Exn "ResourceNotFoundException" "image set not found" true))
             [] [] [].

(** The metadata call is cut short by a [SystemExit()]. *)
Definition metadata_call_exits : Scenario :=
  MkScenario (inl (Exn "SystemExit" "" false)) [] [] [].

Definition absolute_series_served : Scenario :=
  MkScenario (inr absolute_series) [] [] [absolute_series].

Definition empty_identifier_served : Scenario :=
  MkScenario (inr empty_identifier) [] [] [empty_identifier].

Definition example_args : Args :=
  {| datastore_id := "ds"; image_set_id := "is"; output_dir := "out";
     max_frames := 0; region := None |}.

Definition out_path : Path := parse_path "out".

(** The worlds a run over [three_frames] goes through when the service
    refuses the frame [f2]: after the set-up, after the metadata phase,
    after the loop and after the manifest is written. *)
Definition demo_env : Env := scripted second_frame_fails.

Definition demo_w0 : world demo_env := initial_world second_frame_fails.

Definition demo_w1 : world demo_env := snd (main_setup example_args demo_w0).

Definition demo_w3 : world demo_env :=
  snd (main_metadata example_args out_path demo_w1).

Definition demo_w4 : world demo_env :=
  snd (main_frames example_args out_path three_frames demo_w3).

Definition demo_w5 : world demo_env :=
  snd (save_manifest out_path (manifest_json expected_run) demo_w4).

(* ===================================================================== *)
(** ** Documents the enumeration can walk *)
(* ===================================================================== *)

Definition is_dict (v : json) : bool :=
  match v with JDict _ => true | _ => false end.

(** What [for frame in image_frames] accepts when every [frame] must
    have a [get] method: a list of dictionaries, or an empty dictionary
    or string (a non-empty one yields strings). *)
Definition frames_walkable (image_frames : json) : bool :=
  match image_frames with
  | JList l => forallb is_dict l
  | JDict [] => true
  | JStr s => String.eqb s ""
  | _ => false
  end.

Definition instance_walkable (instance_data : json) : bool :=
  match instance_data with
  | JDict d => absent_or frames_walkable d "ImageFrames"
  | _ => false
  end.

Definition series_walkable (series_data : json) : bool :=
  match series_data with
  | JDict d =>
      absent_or (fun v => match v with
                          | JDict l => forallb (fun i => instance_walkable (snd i)) l
                          | _ => false
                          end) d "Instances"
  | _ => false
  end.

Definition study_walkable (study : json) : bool :=
  match study with
  | JDict d =>
      absent_or (fun v => match v with
                          | JDict l => forallb (fun s => series_walkable (snd s)) l
                          | _ => false
                          end) d "Series"
  | _ => false
  end.

Definition walkable (metadata : json) : bool :=
  match metadata with
  | JDict d => absent_or study_walkable d "Study"
  | _ => false
  end.

(** The exceptions the navigation of a document can raise. *)
Definition navigation_error (e : exn) : Prop :=
  exn_is_Exception e = true
  /\ (exn_class e = "AttributeError" \/ exn_class e = "TypeError").

(** A document that holds the given series and nothing else. *)
Definition document_of_series (series : list (string * json)) : json :=
  JDict [("Study", JDict [("Series", JDict series)])].

(** Where a descriptor comes from: a frame reference of an instance of a
    series of the document. *)
Definition from_document (metadata : json) (frame_info : FrameInfo) : Prop :=
  exists series_data instance_data frame,
    In (seriesId frame_info, series_data) (document_series metadata)
    /\ In (instanceId frame_info, instance_data) (series_instances series_data)
    /\ In frame (instance_frames instance_data)
    /\ child frame "ID" = frameId frame_info.

(* ===================================================================== *)
(** ** Reading the trace *)
(* ===================================================================== *)

Definition is_frame_request (ev : event) : bool :=
  match ev with
  | EvGetImageFrame _ _ _ => true
  | _ => false
  end.

(** The requests for frames, in the order they were made. *)
Definition frame_requests (tr : list event) : list event :=
  List.filter is_frame_request tr.

(** The event opens or writes the file at [path]. *)
Definition touches (path : string) (ev : event) : bool :=
  match ev with
  | EvOpen p | EvWrite p _ => String.eqb p path
  | _ => false
  end.

(** The file at [path] keeps its content and no event of the step
    concerns it. *)
Definition untouched {E : Env} (path : string) (w w' : world E) : Prop :=
  files w' !! path = files w !! path
  /\ exists later,
       trace w' = trace w ++ later
       /\ Forall (fun ev => touches path ev = false) later.

(* ===================================================================== *)
(** ** More scripted environments *)
(* ===================================================================== *)

(** The service refuses every frame of [three_frames]. *)
Definition all_frames_refused : Scenario :=
  MkScenario (inr three_frames) ["f1"; "f2"; "f3"] [] [three_frames].

(** The service delivers a document that is a list, not an object. *)
Definition list_document_served : Scenario :=
  MkScenario (inr (JList [])) [] [] [JList []].

(** An environment that behaves as [E0] except that the output directory
    cannot be created. *)
Definition with_failing_mkdir (E0 : Env) (e : exn) : Env :=
  {| env_state := env_state E0;
     environ_AWS_REGION := environ_AWS_REGION E0;
     boto3_client := boto3_client E0;
     client_get_image_set_metadata := client_get_image_set_metadata E0;
     client_get_image_frame := client_get_image_frame E0;
     gzip_decompress := gzip_decompress E0;
     bytes_decode_utf8 := bytes_decode_utf8 E0;
     json_loads := json_loads E0;
     json_dumps := json_dumps E0;
     py_str := py_str E0;
     os_mkdir := fun _ h => (Some e, h);
     os_open := os_open E0;
     os_write := os_write E0 |}.

(** An environment that behaves as [E0] except that the request for the
    frame [interrupted] is cut short by [e] (a [KeyboardInterrupt], say). *)
Definition with_interrupted_frame (E0 : Env) (interrupted : string) (e : exn)
  : Env :=
  {| env_state := env_state E0;
     environ_AWS_REGION := environ_AWS_REGION E0;
     boto3_client := boto3_client E0;
     client_get_image_set_metadata := client_get_image_set_metadata E0;
     client_get_image_frame := fun ds iset frame_id h =>
       match frame_id with
       | JStr s => if String.eqb s interrupted then (inl e, h)
                   else client_get_image_frame E0 ds iset frame_id h
       | _ => client_get_image_frame E0 ds iset frame_id h
       end;
     gzip_decompress := gzip_decompress E0;
     bytes_decode_utf8 := bytes_decode_utf8 E0;
     json_loads := json_loads E0;
     json_dumps := json_dumps E0;
     py_str := py_str E0;
     os_mkdir := os_mkdir E0;
     os_open := os_open E0;
     os_write := os_write E0 |}.

Definition KeyboardInterrupt : exn := Exn "KeyboardInterrupt" "" false.

Definition PermissionError : exn :=
  Exn "PermissionError" "[Errno 13] Permission denied" true.

(** A run over [three_frames] in which the request for [f2] is
    interrupted from the keyboard. *)
Definition interrupted_env : Env :=
  with_interrupted_frame demo_env "f2" KeyboardInterrupt.

Definition interrupted_w0 : world interrupted_env :=
  MkWorld (O : env_state interrupted_env) ∅ [].

Definition interrupted_w1 : world interrupted_env :=
  snd (main_setup example_args interrupted_w0).

Definition interrupted_w3 : world interrupted_env :=
  snd (main_metadata example_args out_path interrupted_w1).

Definition interrupted_w4 : world interrupted_env :=
  snd (main_frames example_args out_path three_frames interrupted_w3).

(* ===================================================================== *)
(** ** The trigger: the Lambda handler of [app.py] *)
(* ===================================================================== *)

(** [v[key]] for a string [key]. *)
Definition py_subscript (v : json) (key : string) : exn + json :=
  match v with
  | JDict d =>
      match dict_lookup d key with
      | Some x => inr x
      | None => inl (Exn "KeyError" ("'" +:+ key +:+ "'") true)
      end
  | JList _ =>
      inl (Exn "TypeError" "list indices must be integers or slices, not str" true)
  | JStr _ =>
      inl (Exn "TypeError" "string indices must be integers, not 'str'" true)
  | _ => inl (Exn "TypeError"
                  ("'" +:+ py_type_name v +:+ "' object is not subscriptable") true)
  end.

(** The collaborators of the handler: the environment of the function
    and the SageMaker client.  Printing is left out. *)
Record Orchestrator : Type := MkOrchestrator {
  orch_state : Type;
  (** the environment variable [PIPELINE_NAME], when it is set *)
  environ_PIPELINE_NAME : option string;
  (** [boto3.client('sagemaker')] *)
  boto3_sagemaker_client : orch_state -> option exn * orch_state;
  (** [sagemaker.start_pipeline_execution(PipelineName=..,
      PipelineParameters=.., PipelineExecutionDescription=..)] *)
  start_pipeline_execution :
    string -> json -> string -> orch_state -> (exn + json) * orch_state;
  (** [str(v)] for a value that is not a string *)
  orch_py_str : json -> string
}.

(** One call to [start_pipeline_execution]. *)
Record StartCall : Type := MkStartCall {
  call_pipeline_name : string;
  call_parameters : json;
  call_description : string
}.

(** The state the handler runs in: the hidden state of the service and
    the calls made so far, oldest first. *)
Record lambda_world (O : Orchestrator) : Type := MkLambdaWorld {
  orch_hidden : orch_state O;
  started : list StartCall
}.
Arguments MkLambdaWorld {O} _ _.
Arguments orch_hidden {O} _.
Arguments started {O} _.

Definition response (status : Z) (body : json) : json :=
  JDict [("statusCode", JInt status); ("body", body)].

Definition pipeline_parameters (image_set_id datastore_id : json) : json :=
  JList [JDict [("Name", JStr "ImageSetId"); ("Value", image_set_id)];
         JDict [("Name", JStr "DatastoreId"); ("Value", datastore_id)]].

(** [handler(event, context)], app.py lines 235-261; [context] is not
    used. *)
Definition handler {O : Orchestrator} (event : json) (w : lambda_world O)
  : (exn + json) * lambda_world O :=
  match environ_PIPELINE_NAME O with
  | None => (inl (Exn "KeyError" "'PIPELINE_NAME'" true), w)
  | Some pipeline_name =>
      match boto3_sagemaker_client O (orch_hidden w) with
      | (Some e, h) => (inl e, MkLambdaWorld h (started w))
      | (None, h) =>
          let w1 := MkLambdaWorld h (started w) in
          match
            (let* detail := py_get event "detail" (JDict []) in
             let* image_set_id := py_get detail "imageSetId" (JStr "") in
             let* datastore_id := py_get detail "datastoreId" (JStr "") in
             inr (image_set_id, datastore_id))
          with
          | inl e => (inl e, w1)
          | inr (image_set_id, datastore_id) =>
              if negb (truthy image_set_id) || negb (truthy datastore_id)
              then (inr (response 400 (JStr "Missing required parameters")), w1)
              else
                let parameters := pipeline_parameters image_set_id datastore_id in
                let description :=
                  "Triggered by ImageSet "
                  +:+ match image_set_id with
                      | JStr s => s
                      | v => orch_py_str O v
                      end in
                let call := MkStartCall pipeline_name parameters description in
                match start_pipeline_execution O pipeline_name parameters
                        description h with
                | (inl e, h') => (inl e, MkLambdaWorld h' (started w ++ [call]))
                | (inr answer, h') =>
                    let w2 := MkLambdaWorld h' (started w ++ [call]) in
                    match py_subscript answer "PipelineExecutionArn" with
                    | inl e => (inl e, w2)
                    | inr arn => (inr (response 200 arn), w2)
                    end
                end
          end
      end
  end.

(** The two identifiers the handler reads from an event, when the event
    and its ["detail"] are objects. *)
Definition event_identifiers (event : json) : option (json * json) :=
  match event with
  | JDict ev =>
      match default (JDict []) (dict_lookup ev "detail") with
      | JDict detail =>
          Some (default (JStr "") (dict_lookup detail "imageSetId"),
                default (JStr "") (dict_lookup detail "datastoreId"))
      | _ => None
      end
  | _ => None
  end.

(** A scripted SageMaker: the pipeline [known] can be started, any other
    name is refused; the hidden state counts the executions started. *)
Definition scripted_sagemaker (configured : option string) (known : string)
  : Orchestrator :=
  {| orch_state := nat;
     environ_PIPELINE_NAME := configured;
     boto3_sagemaker_client := fun n => (None, n);
     start_pipeline_execution := fun name _ _ n =>
       if String.eqb name known
       then (inr (JDict [("PipelineExecutionArn",
                          JStr ("arn:aws:sagemaker:::pipeline/" +:+ name
                                +:+ "/execution/" +:+ pretty (N.of_nat n)))]),
             S n)
       else (inl (Exn "ResourceNotFound" "Pipeline does not exist" true), n);
     orch_py_str := render |}.

Definition image_set_event (image_set_id datastore_id : json) : json :=
  JDict [("source", JStr "aws.medical-imaging");
         ("detail", JDict [("imageSetId", image_set_id);
                           ("datastoreId", datastore_id);
                           ("state", JStr "ACTIVE")])].

Definition trigger_env : Orchestrator :=
  scripted_sagemaker (Some "ahi-mlops-pipeline") "ahi-mlops-pipeline".

Definition trigger_idle : lambda_world trigger_env :=
  MkLambdaWorld (0%nat : orch_state trigger_env) [].

(* ===================================================================== *)
(** ** The consumer: the training script reads the manifest *)
(* ===================================================================== *)

(** A replacement field of an f-string: a string as it is, an integer in
    decimal, anything else as [str] renders it. *)
Definition format_with (str : json -> string) (v : json) : string :=
  match v with
  | JStr s => s
  | JInt n => pretty n
  | _ => str v
  end.

(** The message of [dummy_train.py], line 52, for the document loaded
    from [manifest.json]. *)
Definition manifest_message (str : json -> string) (manifest : json)
  : exn + string :=
  let* total_frames := py_get manifest "totalFrames" (JInt 0) in
  let* image_set := py_get manifest "imageSetId" (JStr "unknown") in
  inr ("Manifest: " +:+ format_with str total_frames
       +:+ " frames from ImageSet " +:+ format_with str image_set).

(* ===================================================================== *)
(** ** Files that exist *)
(* ===================================================================== *)

(** Every file of [w] is still a file of [w']. *)
Definition grows {E : Env} (w w' : world E) : Prop :=
  forall path, is_Some (files w !! path) -> is_Some (files w' !! path).

(** The path at which the frame of a descriptor is saved. *)
Definition frame_path {E : Env} (output_path : Path) (frame_info : FrameInfo)
  : string :=
  path_str (path_join output_path (frame_filename (E:=E) frame_info)).

(** An event that opens or writes a file concerns a path that ends in
    [k]. *)
Definition on_frame_file (ev : event) : Prop :=
  match ev with
  | EvOpen path | EvWrite path _ => string_last path = Some "k"%char
  | _ => True
  end.

(* ===================================================================== *)
(** * Properties *)
(* ===================================================================== *)

(** ** Enumeration *)

Lemma bind_exn_inr {A B : Type} (m : exn + A) (k : A -> exn + B) (b : B) :
  bind_exn m k = inr b -> exists a, m = inr a /\ k a = inr b.
Proof. destruct m as [e | a]; simpl; [discriminate | eauto]. Qed.

Ltac invert_bind_exn :=
  repeat match goal with
         | H : bind_exn _ _ = inr _ |- _ =>
             let a := fresh "a" in
             let Ha := fresh "Ha" in
             apply bind_exn_inr in H; destruct H as (a & Ha & H)
         end.

Lemma py_get_inr (v : json) (key : string) (dflt x : json) :
  py_get v key dflt = inr x ->
  exists d, v = JDict d /\ x = match dict_lookup d key with
                              | Some y => y
                              | None => dflt
                              end.
Proof. destruct v; simpl; try discriminate. intros [= <-]. eauto. Qed.

Lemma py_items_inr (v : json) (d : list (string * json)) :
  py_items v = inr d -> v = JDict d.
Proof. destruct v; simpl; try discriminate. congruence. Qed.

Lemma frames_loop_spec (sid iid : string) (frames : list json) :
  forall acc l,
    frames_loop sid iid frames acc = inr l ->
    l = acc ++ described_frames_of_instance sid iid frames.
Proof.
  induction frames as [| frame rest IH]; intros acc l H; simpl in H.
  - injection H as <-. simpl. by rewrite app_nil_r.
  - invert_bind_exn.
    apply py_get_inr in Ha as (d & -> & ->).
    apply IH in H. subst l. simpl.
    destruct (truthy _); simpl; [by rewrite <- app_assoc | done].
Qed.

(** Iterating over anything but a list hands strings to the loop body,
    whose [frame.get] then raises. *)
Lemma frames_loop_of_strings (sid iid : string) (frames : list json) acc l :
  Forall (fun x => exists s, x = JStr s) frames ->
  frames_loop sid iid frames acc = inr l ->
  frames = [].
Proof.
  intros Hall H. destruct Hall as [| x rest [s ->] _]; [done |].
  simpl in H. discriminate.
Qed.

Lemma string_chars_strings (s : string) :
  Forall (fun x => exists t, x = JStr t) (string_chars s).
Proof. induction s; simpl; constructor; eauto. Qed.

Lemma py_iter_frames (sid iid : string) (image_frames : json) frames acc l :
  py_iter image_frames = inr frames ->
  frames_loop sid iid frames acc = inr l ->
  frames = list_items image_frames.
Proof.
  destruct image_frames as [| | | | s | items | d]; simpl; try discriminate;
    intros [= <-] H.
  - apply frames_loop_of_strings in H; [done | apply string_chars_strings].
  - done.
  - apply frames_loop_of_strings in H; [done |].
    apply List.Forall_forall. intros x Hx.
    apply in_map_iff in Hx as (kv & <- & _). eauto.
Qed.

Lemma instances_loop_spec (sid : string) (instances : list (string * json)) :
  forall acc l,
    instances_loop sid instances acc = inr l ->
    l = acc ++ described_frames_of_series sid instances.
Proof.
  induction instances as [| [iid inst] rest IH]; intros acc l H; simpl in H.
  - injection H as <-. simpl. by rewrite app_nil_r.
  - invert_bind_exn.
    apply py_get_inr in Ha as (d & -> & ->).
    pose proof (py_iter_frames _ _ _ _ _ _ Ha0 Ha1) as Hfr.
    apply frames_loop_spec in Ha1. apply IH in H. subst.
    unfold described_frames_of_series at 2. simpl.
    rewrite <- app_assoc. f_equal. f_equal.
    unfold instance_frames, child.
    by destruct (dict_lookup d "ImageFrames").
Qed.

Lemma series_loop_spec (series : list (string * json)) :
  forall acc l,
    series_loop series acc = inr l ->
    l = acc ++ flat_map (fun s => described_frames_of_series
                                   (fst s) (series_instances (snd s))) series.
Proof.
  induction series as [| [sid sd] rest IH]; intros acc l H; simpl in H.
  - injection H as <-. simpl. by rewrite app_nil_r.
  - invert_bind_exn.
    apply py_get_inr in Ha as (d & -> & ->).
    apply py_items_inr in Ha0.
    apply instances_loop_spec in Ha1. apply IH in H. subst. simpl.
    rewrite <- app_assoc. f_equal. f_equal.
    unfold series_instances, child.
    destruct (dict_lookup d "Instances"); simpl in *; by simplify_eq.
Qed.

(** Whenever the enumeration returns, it returns the descriptors of the
    frame references with a truthy identifier, in document order. *)
Lemma extract_frame_ids_spec (metadata : json) (l : list FrameInfo) :
  extract_frame_ids metadata = inr l -> l = described_frames metadata.
Proof.
  unfold extract_frame_ids. intros H. invert_bind_exn.
  apply py_get_inr in Ha as (d & -> & ->).
  apply py_get_inr in Ha0 as (d' & Hd' & ->).
  apply py_items_inr in Ha1.
  apply series_loop_spec in H. subst l. simpl.
  unfold described_frames, document_series, child.
  destruct (dict_lookup d "Study") as [study |]; simpl in *.
  - subst study. destruct (dict_lookup d' "Series"); simpl in *; by simplify_eq.
  - injection Hd' as <-. simpl in *. by simplify_eq.
Qed.

Lemma described_frames_of_instance_length (sid iid : string) (frames : list json) :
  (length (described_frames_of_instance sid iid frames) <= length frames)%nat.
Proof.
  induction frames as [| frame rest IH]; simpl; [lia |].
  rewrite length_app. destruct (truthy _); simpl; lia.
Qed.

Lemma frame_reference_ok_truthy (frame : json) :
  frame_reference_ok frame = true ->
  exists d, frame = JDict d /\ truthy (child frame "ID") = true.
Proof.
  destruct frame as [| | | | | | d]; simpl; try discriminate.
  destruct (dict_lookup d "ID") as [[| | | | s | |] |]; try discriminate.
  intros H. eauto.
Qed.

Lemma described_frames_of_instance_all (sid iid : string) (frames : list json) :
  forallb frame_reference_ok frames = true ->
  length (described_frames_of_instance sid iid frames) = length frames.
Proof.
  induction frames as [| frame rest IH]; simpl; [done |].
  intros [Hf Hrest]%andb_prop.
  apply frame_reference_ok_truthy in Hf as (d & -> & Ht).
  rewrite length_app, Ht. simpl. by rewrite IH.
Qed.

Lemma described_frames_length (metadata : json) :
  (length (described_frames metadata) <= frame_reference_count metadata)%nat.
Proof.
  unfold described_frames, frame_reference_count.
  induction (document_series metadata) as [| [sid sd] rest IH]; simpl; [lia |].
  rewrite length_app.
  assert (length (described_frames_of_series sid (series_instances sd))
          <= sum_nat (map (fun i => length (instance_frames (snd i)))
                          (series_instances sd)))%nat; [| lia].
  unfold described_frames_of_series.
  induction (series_instances sd) as [| [iid inst] insts IHi]; simpl; [lia |].
  rewrite length_app.
  pose proof (described_frames_of_instance_length sid iid (instance_frames inst)).
  lia.
Qed.

(** The enumeration returns on a well-formed document. *)
Lemma frames_loop_total (sid iid : string) (frames : list json) :
  forallb frame_reference_ok frames = true ->
  forall acc, exists l, frames_loop sid iid frames acc = inr l.
Proof.
  induction frames as [| frame rest IH]; simpl; intros H acc; [eauto |].
  apply andb_prop in H as [Hf Hrest].
  apply frame_reference_ok_truthy in Hf as (d & -> & _). simpl.
  apply IH, Hrest.
Qed.

Lemma instances_loop_total (sid : string) (instances : list (string * json)) :
  forallb (fun i => instance_ok (snd i)) instances = true ->
  forall acc, exists l, instances_loop sid instances acc = inr l.
Proof.
  induction instances as [| [iid inst] rest IH]; simpl; intros H acc; [eauto |].
  apply andb_prop in H as [Hi Hrest].
  destruct inst as [| | | | | | d]; simpl in Hi; try discriminate.
  unfold absent_or in Hi. simpl.
  destruct (dict_lookup d "ImageFrames") as [[| | | | | frames |] |];
    try discriminate; simpl.
  - destruct (frames_loop_total sid iid frames Hi acc) as [l ->]. simpl.
    apply IH, Hrest.
  - apply IH, Hrest.
Qed.

Lemma series_loop_total (series : list (string * json)) :
  forallb (fun s => series_ok (snd s)) series = true ->
  forall acc, exists l, series_loop series acc = inr l.
Proof.
  induction series as [| [sid sd] rest IH]; simpl; intros H acc; [eauto |].
  apply andb_prop in H as [Hs Hrest].
  destruct sd as [| | | | | | d]; simpl in Hs; try discriminate.
  unfold absent_or in Hs. simpl.
  destruct (dict_lookup d "Instances") as [[| | | | | | instances] |];
    try discriminate; simpl.
  - destruct (instances_loop_total sid instances Hs acc) as [l ->]. simpl.
    apply IH, Hrest.
  - apply IH, Hrest.
Qed.

Lemma extract_frame_ids_total (metadata : json) :
  well_formed metadata = true ->
  exists l, extract_frame_ids metadata = inr l.
Proof.
  destruct metadata as [| | | | | | d]; simpl; try discriminate.
  unfold absent_or, extract_frame_ids. simpl.
  destruct (dict_lookup d "Study") as [[| | | | | | study] |];
    try discriminate; simpl.
  - unfold absent_or.
    destruct (dict_lookup study "Series") as [[| | | | | | series] |];
      try discriminate; simpl; [| eauto].
    intros H. apply series_loop_total, H.
  - eauto.
Qed.

Lemma well_formed_count (metadata : json) :
  well_formed metadata = true ->
  length (described_frames metadata) = frame_reference_count metadata.
Proof.
  intros Hwf.
  assert (forallb (fun s => series_ok (snd s)) (document_series metadata) = true)
    as Hseries.
  { destruct metadata as [| | | | | | d]; simpl in Hwf; try discriminate.
    unfold document_series, child, absent_or in *.
    destruct (dict_lookup d "Study") as [[| | | | | | study] |];
      try discriminate; simpl in *; [| done].
    unfold absent_or in Hwf.
    by destruct (dict_lookup study "Series") as [[| | | | | | series] |]. }
  unfold described_frames, frame_reference_count.
  induction (document_series metadata) as [| [sid sd] rest IH]; simpl; [done |].
  simpl in Hseries. apply andb_prop in Hseries as [Hs Hrest].
  rewrite length_app, (IH Hrest). f_equal.
  assert (forallb (fun i => instance_ok (snd i)) (series_instances sd) = true)
    as Hinst.
  { destruct sd as [| | | | | | d]; simpl in Hs; try discriminate.
    unfold series_instances, child, absent_or in *.
    by destruct (dict_lookup d "Instances") as [[| | | | | | instances] |]. }
  unfold described_frames_of_series.
  induction (series_instances sd) as [| [iid inst] insts IHi]; simpl; [done |].
  simpl in Hinst. apply andb_prop in Hinst as [Hi Hinsts].
  rewrite length_app, (IHi Hinsts). f_equal.
  apply described_frames_of_instance_all.
  destruct inst as [| | | | | | d]; simpl in Hi; try discriminate.
  unfold instance_frames, child, absent_or in *.
  by destruct (dict_lookup d "ImageFrames") as [[| | | | | frames |] |].
Qed.

(** C3. For every well-formed metadata document the enumeration returns,
    and the number of descriptors it returns is the number of frame
    reference entries of the document: the sum, over all series and all
    instances within them, of the length of the instance's [ImageFrames]
    list. *)
Theorem enumeration_counts_frame_references (metadata : json) :
  well_formed metadata = true ->
  exists frame_ids,
    extract_frame_ids metadata = inr frame_ids
    /\ length frame_ids = frame_reference_count metadata.
Proof.
  intros Hwf.
  destruct (extract_frame_ids_total metadata Hwf) as [l Hl].
  exists l. split; [done |].
  apply extract_frame_ids_spec in Hl as ->.
  by apply well_formed_count.
Qed.

Lemma enumeration_counts_frame_references_witness :
  well_formed three_frames = true
  /\ exists frame_ids,
       extract_frame_ids three_frames = inr frame_ids
       /\ length frame_ids = frame_reference_count three_frames.
Proof.
  split; [reflexivity |].
  apply (enumeration_counts_frame_references three_frames). reflexivity.
Defined.

(** C10. The enumeration has a descriptor exactly for the frame
    references whose ["ID"] is present and truthy: whenever it returns, it
    returns the descriptors of those references, in document order, so it
    has at most as many descriptors as the document has frame reference
    entries; a reference with a missing, empty or otherwise falsy ["ID"]
    is skipped without an error, and the number of descriptors is then
    strictly smaller. *)
Theorem enumeration_skips_falsy_identifiers (metadata : json)
    (frame_ids : list FrameInfo) :
  extract_frame_ids metadata = inr frame_ids ->
  frame_ids = described_frames metadata
  /\ (length frame_ids <= frame_reference_count metadata)%nat
  /\ (forall sid iid before frame after,
        truthy (child frame "ID") = false ->
        described_frames_of_instance sid iid (before ++ frame :: after)
        = described_frames_of_instance sid iid (before ++ after))
  /\ extract_frame_ids empty_identifier
     = inr [MkFrameInfo (JStr "f1") "s1" "i1"; MkFrameInfo (JStr "f3") "s1" "i1"]
  /\ frame_reference_count empty_identifier = 3%nat.
Proof.
  intros H. apply extract_frame_ids_spec in H as ->.
  split; [done |]. split; [apply described_frames_length |].
  split; [| split; reflexivity].
  intros sid iid before frame after Hfalsy.
  unfold described_frames_of_instance.
  rewrite !flat_map_app. simpl. by rewrite Hfalsy.
Qed.

Lemma enumeration_skips_falsy_identifiers_witness :
  extract_frame_ids empty_identifier
  = inr [MkFrameInfo (JStr "f1") "s1" "i1"; MkFrameInfo (JStr "f3") "s1" "i1"]
  /\ (2 <= frame_reference_count empty_identifier)%nat.
Proof.
  split; [reflexivity |].
  apply (enumeration_skips_falsy_identifiers empty_identifier
           [MkFrameInfo (JStr "f1") "s1" "i1"; MkFrameInfo (JStr "f3") "s1" "i1"]).
  reflexivity.
Defined.

(** ** Truncation *)

Lemma py_slice_to_positive {A : Type} (l : list A) (n : Z) :
  0 < n -> py_slice_to l n = firstn (Z.to_nat n) l.
Proof.
  intros Hn. unfold py_slice_to.
  destruct (Z.ltb_spec n 0) as [? | _]; [lia |].
  rewrite Z2Nat.inj_min, Nat2Z.id.
  by rewrite <- firstn_firstn, firstn_all.
Qed.

(** C4. With [max_frames = 0] every descriptor is kept, unchanged.  With
    [max_frames = N > 0] exactly [min N total] descriptors are kept: the
    first [N] in enumeration order; the others are dropped, and no error
    is involved ([limit_frames] is a total function). *)
Theorem limit_frames_takes_the_head (frame_ids : list FrameInfo) (N : Z) :
  0 < N ->
  limit_frames 0 frame_ids = frame_ids
  /\ limit_frames N frame_ids = firstn (Z.to_nat N) frame_ids
  /\ length (limit_frames N frame_ids)
     = Nat.min (Z.to_nat N) (length frame_ids)
  /\ frame_ids = limit_frames N frame_ids ++ skipn (Z.to_nat N) frame_ids.
Proof.
  intros HN. split; [reflexivity |].
  assert (limit_frames N frame_ids = firstn (Z.to_nat N) frame_ids) as ->.
  { unfold limit_frames. destruct (Z.ltb_spec 0 N) as [_ | ?]; [| lia].
    by apply py_slice_to_positive. }
  split; [done |]. split; [apply length_firstn |].
  symmetry. apply firstn_skipn.
Qed.

Lemma limit_frames_takes_the_head_witness :
  0 < 2
  /\ limit_frames 2 [MkFrameInfo (JStr "f1") "s1" "i1";
                     MkFrameInfo (JStr "f2") "s1" "i1";
                     MkFrameInfo (JStr "f3") "s1" "i1"]
     = [MkFrameInfo (JStr "f1") "s1" "i1"; MkFrameInfo (JStr "f2") "s1" "i1"].
Proof.
  split; [lia |].
  apply (limit_frames_takes_the_head
           [MkFrameInfo (JStr "f1") "s1" "i1";
            MkFrameInfo (JStr "f2") "s1" "i1";
            MkFrameInfo (JStr "f3") "s1" "i1"] 2).
  lia.
Defined.

(** ** Effects: how the steps of the script change the world *)

Lemma bind_inr {E : Env} {A B : Type} (m : M E A) (k : A -> M E B) w b w' :
  bind m k w = (inr b, w') ->
  exists a w1, m w = (inr a, w1) /\ k a w1 = (inr b, w').
Proof.
  unfold bind. destruct (m w) as [[e | a] w1]; [discriminate | eauto].
Qed.

Lemma bind_inl {E : Env} {A B : Type} (m : M E A) (k : A -> M E B) w e w' :
  bind m k w = (inl e, w') ->
  m w = (inl e, w')
  \/ exists a w1, m w = (inr a, w1) /\ k a w1 = (inl e, w').
Proof.
  unfold bind. destruct (m w) as [[e1 | a] w1]; [intros [= -> ->] |]; eauto.
Qed.

Lemma bind_step {E : Env} {A B : Type} (m : M E A) (k : A -> M E B) w a w1 :
  m w = (inr a, w1) -> bind m k w = k a w1.
Proof. unfold bind. by intros ->. Qed.

Lemma bind_abort {E : Env} {A B : Type} (m : M E A) (k : A -> M E B) w e w1 :
  m w = (inl e, w1) -> bind m k w = (inl e, w1).
Proof. unfold bind. by intros ->. Qed.

Section Stable.
Context {E : Env} (R : world E -> world E -> Prop).
Hypothesis R_refl : forall w, R w w.
Hypothesis R_trans : forall w1 w2 w3, R w1 w2 -> R w2 w3 -> R w1 w3.

Lemma stable_ret {A : Type} (a : A) : stable R (ret a).
Proof. intros w r w' [= <- <-]. apply R_refl. Qed.

Lemma stable_raise {A : Type} (e : exn) : stable R (raise (A:=A) e).
Proof. intros w r w' [= <- <-]. apply R_refl. Qed.

Lemma stable_lift {A : Type} (x : exn + A) : stable R (lift x).
Proof. intros w r w' [= <- <-]. apply R_refl. Qed.

Lemma stable_bind {A B : Type} (m : M E A) (k : A -> M E B) :
  stable R m -> (forall a, stable R (k a)) -> stable R (bind m k).
Proof.
  intros Hm Hk w r w'. unfold bind.
  destruct (m w) as [[e | a] w1] eqn:Hmw.
  - intros [= <- <-]. eapply Hm, Hmw.
  - intros Hka. eapply R_trans; [eapply Hm, Hmw | eapply Hk, Hka].
Qed.

Lemma stable_try_except {A : Type} (body : M E A) (handler : exn -> M E A) :
  stable R body -> (forall e, stable R (handler e)) ->
  stable R (try_except body handler).
Proof.
  intros Hb Hh w r w'. unfold try_except.
  destruct (body w) as [[e | a] w1] eqn:Hbw.
  - destruct (exn_is_Exception e).
    + intros Hhe. eapply R_trans; [eapply Hb, Hbw | eapply Hh, Hhe].
    + intros [= <- <-]. eapply Hb, Hbw.
  - intros [= <- <-]. eapply Hb, Hbw.
Qed.
End Stable.

(** ** Paths *)

Lemma append_cons (x : ascii) (a b : string) :
  String x a +:+ b = String x (a +:+ b).
Proof. reflexivity. Qed.

Lemma append_empty (b : string) : EmptyString +:+ b = b.
Proof. reflexivity. Qed.

Lemma append_assoc (a b c : string) : (a +:+ b) +:+ c = a +:+ (b +:+ c).
Proof.
  induction a as [| x a IH]; [done |].
  by rewrite !append_cons, IH.
Qed.

Lemma append_cancel (s a b : string) : s +:+ a = s +:+ b -> a = b.
Proof.
  induction s as [| x s IH]; [done |].
  rewrite !append_cons. intros [= H]. by apply IH.
Qed.

Lemma string_last_app (s t : string) (c : ascii) :
  string_last t = Some c -> string_last (s +:+ t) = Some c.
Proof.
  intros Ht. induction s as [| x s IH]; [done |].
  rewrite append_cons. simpl.
  destruct (s +:+ t) eqn:Hst; [| done].
  destruct s; [| discriminate].
  rewrite append_empty in Hst. subst t. discriminate.
Qed.

Lemma frame_filename_last {E : Env} (frame_info : FrameInfo) :
  string_last (frame_filename (E:=E) frame_info) = Some "k"%char.
Proof. unfold frame_filename. by repeat apply string_last_app. Qed.

Lemma split_slash_last (s : string) (c : ascii) :
  string_last s = Some c -> c <> slash ->
  exists l x, split_slash s = l ++ [x] /\ string_last x = Some c.
Proof.
  intros Hs Hc. induction s as [| a r IH]; [discriminate |].
  destruct r as [| b r'].
  - injection Hs as ->. exists [], (String c EmptyString). simpl.
    destruct (Ascii.eqb_spec c slash); done.
  - destruct (IH Hs) as (l & x & Hsplit & Hx).
    change (split_slash (String a (String b r')))
      with (if Ascii.eqb a slash then EmptyString :: split_slash (String b r')
            else match split_slash (String b r') with
                 | [] => [String a EmptyString]
                 | w :: ws => String a w :: ws
                 end).
    rewrite Hsplit. destruct (Ascii.eqb a slash).
    + by exists (EmptyString :: l), x.
    + destruct l as [| w l]; simpl.
      * exists [], (String a x). split; [done |].
        simpl. by destruct x.
      * by exists (String a w :: l), x.
Qed.

Lemma parse_path_last (s : string) :
  string_last s = Some "k"%char ->
  exists l x, path_parts (parse_path s) = l ++ [x]
              /\ string_last x = Some "k"%char.
Proof.
  intros Hs. destruct (split_slash_last s _ Hs) as (l & x & Hsplit & Hx); [done |].
  exists (List.filter is_component l), x. split; [| done].
  unfold parse_path. simpl. rewrite Hsplit, List.filter_app. simpl.
  replace (is_component x) with true; [done |].
  unfold is_component.
  destruct x as [| a [| b x]]; simpl in *; [discriminate | |].
  - injection Hx as ->. reflexivity.
  - by destruct (Ascii.eqb a _).
Qed.

(** The string of a path is a prefix, fixed by the directory, followed
    by the last component. *)
Lemma path_str_snoc (r : string) (l : list string) :
  exists prefix, forall x, path_str (MkPath r (l ++ [x])) = prefix +:+ x.
Proof.
  assert (exists prefix, forall x, join_slash (l ++ [x]) = prefix +:+ x)
    as [prefix Hprefix].
  { induction l as [| a l [prefix IH]].
    - by exists EmptyString.
    - exists (a +:+ "/" +:+ prefix). intros x.
      rewrite !append_assoc, <- IH. simpl.
      by destruct (l ++ [x]) eqn:Hl; [destruct l |]. }
  exists (r +:+ prefix). intros x. unfold path_str. simpl.
  rewrite append_assoc, <- Hprefix.
  by destruct (l ++ [x]) eqn:Hl; [destruct l |].
Qed.

Lemma path_join_component (p : Path) (name : string) :
  parse_path name = MkPath EmptyString [name] ->
  path_join p name = MkPath (path_root p) (path_parts p ++ [name]).
Proof. unfold path_join. by intros ->. Qed.

Lemma path_join_parts (p : Path) (s : string) :
  exists r l, path_join p s = MkPath r (l ++ path_parts (parse_path s)).
Proof.
  unfold path_join. cbv zeta. destruct (String.eqb _ _).
  - by exists (path_root p), (path_parts p).
  - exists (path_root (parse_path s)), []. by destruct (parse_path s).
Qed.

Lemma frame_path_last {E : Env} (output_path : Path) (frame_info : FrameInfo) :
  string_last (path_str (path_join output_path (frame_filename (E:=E) frame_info)))
  = Some "k"%char.
Proof.
  destruct (parse_path_last _ (frame_filename_last (E:=E) frame_info))
    as (l & x & Hparts & Hx).
  destruct (path_join_parts output_path (frame_filename (E:=E) frame_info))
    as (r & l0 & ->).
  rewrite Hparts, app_assoc.
  destruct (path_str_snoc r (l0 ++ l)) as [prefix ->].
  by apply string_last_app.
Qed.

Lemma frame_path_not_metadata {E : Env} (output_path : Path) (frame_info : FrameInfo) :
  path_str (path_join output_path (frame_filename (E:=E) frame_info))
  <> path_str (path_join output_path "metadata.json").
Proof.
  intros Heq. pose proof (frame_path_last (E:=E) output_path frame_info) as Hk.
  rewrite Heq, path_join_component in Hk; [| reflexivity].
  destruct (path_str_snoc (path_root output_path) (path_parts output_path))
    as [prefix Hprefix].
  rewrite Hprefix in Hk.
  by rewrite (string_last_app _ "metadata.json" "n"%char) in Hk.
Qed.

Lemma manifest_path_not_metadata (output_path : Path) :
  path_str (path_join output_path "manifest.json")
  <> path_str (path_join output_path "metadata.json").
Proof.
  rewrite !path_join_component; [| reflexivity ..].
  destruct (path_str_snoc (path_root output_path) (path_parts output_path))
    as [prefix Hprefix].
  rewrite !Hprefix. intros Heq%append_cancel. discriminate.
Qed.

(** ** The per-frame loop *)

Lemma success_record_entry (frame_info : FrameInfo) (filepath : Path)
    (frame_data : list Byte.byte) :
  entry_for frame_info (success_record frame_info filepath frame_data)
  /\ is_success_record (success_record frame_info filepath frame_data) = true.
Proof. repeat split; reflexivity. Qed.

Lemma error_record_entry (frame_info : FrameInfo) (e : exn) :
  entry_for frame_info (error_record frame_info e)
  /\ is_error_record (error_record frame_info e) = true
  /\ py_get (error_record frame_info e) "error" JNull = inr (JStr (exn_message e)).
Proof. repeat split; reflexivity. Qed.

Lemma try_frame_inr {E : Env} args output_path frame_info manifest
    (w : world E) manifest' w' :
  try_frame args output_path frame_info manifest w = (inr manifest', w') ->
  exists frame_data w1,
    fetch_image_frame (datastore_id args) (image_set_id args)
                      (frameId frame_info) w = (inr frame_data, w1)
    /\ write_file (path_str (path_join output_path (frame_filename (E:=E) frame_info)))
                  (FBytes frame_data) w1 = (inr tt, w')
    /\ manifest' = append_frame manifest
                     (success_record frame_info
                        (path_join output_path (frame_filename (E:=E) frame_info))
                        frame_data).
Proof.
  unfold try_frame, save_frame. intros H.
  apply bind_inr in H as (frame_data & w1 & Hfetch & H).
  apply bind_inr in H as (filepath & w2 & Hsave & H).
  apply bind_inr in Hsave as ([] & w3 & Hwrite & Hret).
  injection Hret as <- <-. injection H as <- <-.
  by exists frame_data, w1.
Qed.

(** An iteration that returns has appended exactly one entry: a success
    record when the [try] block returned, an error record when it raised. *)
Lemma process_frame_inr {E : Env} args output_path frame_info manifest
    (w : world E) manifest' w' :
  process_frame args output_path frame_info manifest w = (inr manifest', w') ->
  (try_frame args output_path frame_info manifest w = (inr manifest', w')
   /\ exists filepath frame_data,
        manifest' = append_frame manifest
                      (success_record frame_info filepath frame_data))
  \/ (exists e,
        try_frame args output_path frame_info manifest w = (inl e, w')
        /\ exn_is_Exception e = true
        /\ manifest' = append_frame manifest (error_record frame_info e)).
Proof.
  unfold process_frame, try_except.
  destruct (try_frame _ _ _ _ w) as [[e | m1] w1] eqn:Htry.
  - destruct (exn_is_Exception e) eqn:He; [| discriminate].
    intros [= <- <-]. right. by exists e.
  - intros [= <- <-]. left. split; [done |].
    apply try_frame_inr in Htry as (frame_data & w2 & _ & _ & ->). eauto.
Qed.

(** An iteration raises only what [except Exception] does not catch. *)
Lemma process_frame_inl {E : Env} args output_path frame_info manifest
    (w : world E) e w' :
  process_frame args output_path frame_info manifest w = (inl e, w') ->
  try_frame args output_path frame_info manifest w = (inl e, w')
  /\ exn_is_Exception e = false.
Proof.
  unfold process_frame, try_except.
  destruct (try_frame _ _ _ _ w) as [[e1 | m1] w1] eqn:Htry; [| discriminate].
  destruct (exn_is_Exception e1) eqn:He; [discriminate |].
  by intros [= <- <-].
Qed.

Lemma fetch_loop_entries {E : Env} args output_path (frame_ids : list FrameInfo) :
  forall manifest (w : world E) manifest' w',
    fetch_loop args output_path frame_ids manifest w = (inr manifest', w') ->
    exists entries,
      m_frames manifest' = m_frames manifest ++ entries
      /\ Forall2 entry_for frame_ids entries
      /\ m_totalFrames manifest' = m_totalFrames manifest
      /\ m_datastoreId manifest' = m_datastoreId manifest
      /\ m_imageSetId manifest' = m_imageSetId manifest.
Proof.
  induction frame_ids as [| frame_info rest IH]; intros manifest w manifest' w' H.
  - injection H as <- <-. exists []. by rewrite app_nil_r.
  - simpl in H. apply bind_inr in H as (m1 & w1 & Hstep & Hrest).
    apply IH in Hrest as (entries & Hfr & Hall & Htot & Hds & His).
    assert (exists r, m1 = append_frame manifest r /\ entry_for frame_info r)
      as (r & -> & Hr).
    { apply process_frame_inr in Hstep
        as [[_ (fp & data & ->)] | (e & _ & _ & ->)];
        eexists; (split; [reflexivity |]);
        first [apply success_record_entry | apply error_record_entry]. }
    exists (r :: entries). simpl in *.
    rewrite Hfr, <- app_assoc. repeat split; try done.
    by constructor.
Qed.

Lemma fetch_loop_inl {E : Env} args output_path (frame_ids : list FrameInfo) :
  forall manifest (w : world E) e w',
    fetch_loop args output_path frame_ids manifest w = (inl e, w') ->
    exn_is_Exception e = false.
Proof.
  induction frame_ids as [| frame_info rest IH]; intros manifest w e w' H.
  - discriminate.
  - simpl in H. apply bind_inl in H as [H | (m1 & w1 & _ & H)].
    + by apply process_frame_inl in H as [_ ?].
    + by eapply IH.
Qed.

Lemma main_frames_inr {E : Env} args output_path metadata (w : world E)
    manifest w' :
  main_frames args output_path metadata w = (inr manifest, w') ->
  exists descriptors,
    extract_frame_ids metadata = inr descriptors
    /\ fetch_loop args output_path
         (limit_frames (max_frames args) descriptors)
         {| m_datastoreId := datastore_id args;
            m_imageSetId := image_set_id args;
            m_totalFrames :=
              Z.of_nat (length (limit_frames (max_frames args) descriptors));
            m_frames := [] |} w = (inr manifest, w').
Proof.
  unfold main_frames. intros H.
  apply bind_inr in H as (descriptors & w1 & Hlift & H).
  injection Hlift as Hextract <-. eauto.
Qed.

(** C1. When the per-frame loop of a run completes, the frames list of
    the manifest has exactly one entry per enumerated descriptor (per
    descriptor kept by the truncation, when [max_frames] is set), in
    enumeration order; each entry carries the fields of its descriptor
    and is either a success record (with [filename] and [size], without
    [error]) or an error record (with [error], without [filename]),
    never both and never neither. *)
Theorem manifest_has_one_entry_per_descriptor {E : Env} (args : Args)
    (output_path : Path) (metadata : json) (w : world E)
    (manifest : Manifest) (w' : world E) :
  main_frames args output_path metadata w = (inr manifest, w') ->
  exists descriptors,
    extract_frame_ids metadata = inr descriptors
    /\ descriptors = described_frames metadata
    /\ length (m_frames manifest)
       = length (limit_frames (max_frames args) descriptors)
    /\ Forall2 entry_for (limit_frames (max_frames args) descriptors)
                         (m_frames manifest).
Proof.
  intros H. apply main_frames_inr in H as (descriptors & Hextract & Hloop).
  exists descriptors. split; [done |].
  split; [by apply extract_frame_ids_spec |].
  apply fetch_loop_entries in Hloop as (entries & Hfr & Hall & _).
  simpl in Hfr. rewrite Hfr.
  split; [| done]. symmetry. by eapply Forall2_length.
Qed.

Lemma manifest_has_one_entry_per_descriptor_witness :
  exists descriptors,
    extract_frame_ids three_frames = inr descriptors
    /\ descriptors = described_frames three_frames
    /\ length (m_frames expected_run)
       = length (limit_frames (max_frames example_args) descriptors)
    /\ Forall2 entry_for (limit_frames (max_frames example_args) descriptors)
                         (m_frames expected_run).
Proof.
  apply (manifest_has_one_entry_per_descriptor
           (E:=scripted second_frame_fails) example_args out_path three_frames
           (initial_world second_frame_fails) expected_run
           (snd (main_frames example_args out_path three_frames
                   (initial_world second_frame_fails)))).
  vm_compute. reflexivity.
Defined.

(** C2. A failure while fetching or writing one frame does not stop the
    loop.  For any three descriptors, when the [try] block returns for
    the first, raises an exception [e] for the second and returns for the
    third, the loop returns a manifest with three more entries: the first
    and the third are success records, the second is an error record
    whose [error] field is the message of [e]. *)
Theorem frame_failure_does_not_halt {E : Env} (args : Args) (output_path : Path)
    (d1 d2 d3 : FrameInfo) (manifest m1 m3 : Manifest) (e : exn)
    (w0 w1 w2 w3 : world E) :
  try_frame args output_path d1 manifest w0 = (inr m1, w1) ->
  try_frame args output_path d2 m1 w1 = (inl e, w2) ->
  exn_is_Exception e = true ->
  try_frame args output_path d3 (append_frame m1 (error_record d2 e)) w2
  = (inr m3, w3) ->
  fetch_loop args output_path [d1; d2; d3] manifest w0 = (inr m3, w3)
  /\ exists r1 r2 r3,
       m_frames m3 = m_frames manifest ++ [r1; r2; r3]
       /\ entry_for d1 r1 /\ is_success_record r1 = true
       /\ entry_for d2 r2 /\ is_error_record r2 = true
       /\ py_get r2 "error" JNull = inr (JStr (exn_message e))
       /\ entry_for d3 r3 /\ is_success_record r3 = true.
Proof.
  intros H1 H2 He H3. split.
  - simpl. unfold process_frame.
    erewrite bind_step; [| unfold try_except; by rewrite H1].
    erewrite bind_step; [| unfold try_except; by rewrite H2, He].
    erewrite bind_step; [| unfold try_except; by rewrite H3].
    reflexivity.
  - apply try_frame_inr in H1 as (data1 & w1' & _ & _ & ->).
    apply try_frame_inr in H3 as (data3 & w3' & _ & _ & ->).
    eexists _, (error_record d2 e), _. simpl.
    rewrite <- !app_assoc. split; [reflexivity |].
    repeat split; reflexivity.
Qed.

Lemma frame_failure_does_not_halt_witness :
  fst (fetch_loop (E:=scripted second_frame_fails) example_args out_path
         [MkFrameInfo (JStr "f1") "s1" "i1"; MkFrameInfo (JStr "f2") "s1" "i1";
          MkFrameInfo (JStr "f3") "s1" "i1"]
         (MkManifest "ds" "is" 3 []) (initial_world second_frame_fails))
  = inr expected_run.
Proof.
  pose (E := scripted second_frame_fails).
  pose (d := fun id => MkFrameInfo (JStr id) "s1" "i1").
  pose (m0 := MkManifest "ds" "is" 3 []).
  pose (m1 := append_frame m0 (success_record (d "f1")
                (path_join out_path "s1_i1_f1.htj2k") (list_byte_of_string "f1"))).
  pose (e := Exn "ResourceNotFoundException" "frame not found" true).
  pose (w0 := initial_world second_frame_fails).
  pose (w1 := snd (try_frame (E:=E) example_args out_path (d "f1") m0 w0)).
  pose (w2 := snd (try_frame (E:=E) example_args out_path (d "f2") m1 w1)).
  pose (w3 := snd (try_frame (E:=E) example_args out_path (d "f3")
                     (append_frame m1 (error_record (d "f2") e)) w2)).
  destruct (frame_failure_does_not_halt (E:=E) example_args out_path
              (d "f1") (d "f2") (d "f3") m0 m1 expected_run e w0 w1 w2 w3)
    as [Hloop _]; [vm_compute; reflexivity .. |].
  subst E d m0 w0. rewrite Hloop. reflexivity.
Defined.

(** ** Effects of the phases of [main] *)

Ltac run_steps H :=
  unfold bind, log_event, env_check, env_call, set_file, write_and_close,
    lift, ret, raise in H;
  simpl in H; repeat case_match; simplify_eq; simpl in *.

Lemma main_setup_inr {E : Env} (args : Args) (w : world E) output_path w1 :
  main_setup args w = (inr output_path, w1) ->
  output_path = parse_path (output_dir args)
  /\ files w1 = files w
  /\ exists region_name,
       trace w1 = trace w ++ [EvMkdir (path_str output_path); EvClient region_name].
Proof.
  unfold main_setup, get_medical_imaging_client. intros H. run_steps H.
  all: split; [done |]; split; [done |].
  all: rewrite <- app_assoc; simpl; eauto.
Qed.

Lemma get_image_set_metadata_effect {E : Env} (ds iset : string) (w : world E)
    r w' :
  get_image_set_metadata ds iset w = (r, w') ->
  files w' = files w
  /\ trace w' = trace w ++ [EvGetImageSetMetadata ds iset].
Proof. unfold get_image_set_metadata. intros H. by run_steps H. Qed.

Lemma write_file_inr {E : Env} (path : string) (content : file) (w : world E) w' :
  write_file path content w = (inr tt, w') ->
  files w' !! path = Some content
  /\ trace w' = trace w ++ [EvOpen path; EvWrite path content].
Proof.
  unfold write_file. intros H. run_steps H.
  all: by rewrite lookup_insert_eq, <- app_assoc.
Qed.

Lemma keeps_refl {E : Env} (p : string) (w : world E) : keeps p w w.
Proof. split; [done |]. exists []. by rewrite app_nil_r. Qed.

Lemma keeps_trans {E : Env} (p : string) (w1 w2 w3 : world E) :
  keeps p w1 w2 -> keeps p w2 w3 -> keeps p w1 w3.
Proof.
  intros [Hf1 [l1 Ht1]] [Hf2 [l2 Ht2]]. split; [congruence |].
  exists (l1 ++ l2). by rewrite Ht2, Ht1, app_assoc.
Qed.

Lemma write_file_keeps {E : Env} (p path : string) (content : file) :
  p <> path -> stable (E:=E) (keeps p) (write_file path content).
Proof.
  intros Hne w r w' H. unfold write_file in H. run_steps H.
  all: split; simpl; [by rewrite ?lookup_insert_ne by congruence |].
  all: rewrite <- ?app_assoc; eauto.
Qed.

Lemma fetch_image_frame_keeps {E : Env} (p ds iset : string) (frame_id : json) :
  stable (E:=E) (keeps p) (fetch_image_frame ds iset frame_id).
Proof.
  intros w r w' H. unfold fetch_image_frame in H. run_steps H.
  split; eauto.
Qed.

Ltac stable_keeps :=
  repeat match goal with
         | |- stable _ (ret _) => apply stable_ret, keeps_refl
         | |- stable _ (lift _) => apply stable_lift, keeps_refl
         | |- stable _ (bind _ _) =>
             apply stable_bind; [apply keeps_trans | | intros ?]
         | |- stable _ (try_except _ _) =>
             apply stable_try_except; [apply keeps_trans | | intros ?]
         end.

(** The loop leaves [metadata.json] alone: every file it writes has a
    name that ends in [.htj2k]. *)
Lemma fetch_loop_keeps_metadata {E : Env} args output_path
    (frame_ids : list FrameInfo) :
  forall manifest,
    stable (E:=E) (keeps (path_str (path_join output_path "metadata.json")))
           (fetch_loop args output_path frame_ids manifest).
Proof.
  induction frame_ids as [| frame_info rest IH]; intros manifest; simpl.
  - apply stable_ret, keeps_refl.
  - apply stable_bind; [apply keeps_trans | | done].
    unfold process_frame, try_frame, save_frame. stable_keeps.
    + apply fetch_image_frame_keeps.
    + apply write_file_keeps. intros Heq. symmetry in Heq.
      by apply frame_path_not_metadata in Heq.
Qed.

Lemma metadata_resolution_raises_inl {E : Env} (ds iset : string) (w : world E)
    (e : exn) :
  metadata_resolution_raises ds iset w e ->
  exists w', get_image_set_metadata ds iset w = (inl e, w').
Proof.
  unfold metadata_resolution_raises, get_image_set_metadata,
    bind, log_event, env_call, lift. simpl.
  destruct (client_get_image_set_metadata E ds iset (hidden w)) as [[e1 | blob] h].
  - simpl. intros ->. eauto.
  - simpl. destruct (gzip_decompress E blob) as [e1 | raw]; [intros ->; eauto |].
    destruct (bytes_decode_utf8 E raw) as [e1 | text]; [intros ->; eauto |].
    intros ->. eauto.
Qed.

(** C5. When metadata resolution fails (the remote metadata call, the
    decompression or the parsing raises), the run aborts with that
    exception before any frame work: no file has been written (in
    particular neither [metadata.json] nor [manifest.json]), and the
    only calls made are the creation of the output directory, the
    creation of the client and the metadata request.  The failure being
    an [Exception], the process exits with status 1, which is not 0. *)
Theorem metadata_failure_aborts {E : Env} (interpreter_status : exn -> Z)
    (args : Args) (w : world E) (output_path : Path) (w1 : world E) (e : exn) :
  main_setup args w = (inr output_path, w1) ->
  metadata_resolution_raises (datastore_id args) (image_set_id args) w1 e ->
  exists w2,
    main args w = (inl e, w2)
    /\ run_main interpreter_status args w
       = (uncaught_status interpreter_status e, w2)
    /\ (exn_is_Exception e = true ->
        run_main interpreter_status args w = (1, w2)
        /\ fst (run_main interpreter_status args w) <> 0)
    /\ files w2 = files w
    /\ exists region_name,
         trace w2 = trace w ++ [EvMkdir (path_str output_path);
                                EvClient region_name;
                                EvGetImageSetMetadata (datastore_id args)
                                                      (image_set_id args)].
Proof.
  intros Hsetup Hfail.
  apply metadata_resolution_raises_inl in Hfail as [w2 Hget].
  assert (main args w = (inl e, w2)) as Hmain.
  { unfold main. rewrite (bind_step _ _ _ _ _ Hsetup).
    apply bind_abort. unfold main_metadata. by apply bind_abort. }
  exists w2. split; [done |].
  unfold run_main, uncaught_status. rewrite Hmain. split; [done |].
  split; [by intros -> |].
  apply main_setup_inr in Hsetup as (_ & Hfiles & rn & Htrace).
  apply get_image_set_metadata_effect in Hget as [Hfiles2 Htrace2].
  split; [congruence |].
  exists rn. by rewrite Htrace2, Htrace, <- app_assoc.
Qed.

Lemma metadata_failure_aborts_witness :
  run_main (E:=scripted metadata_call_fails) posix_status example_args
           (initial_world metadata_call_fails)
  = (1, MkWorld (1%nat : env_state (scripted metadata_call_fails)) ∅
          [EvMkdir "out"; EvClient "us-east-1"; EvGetImageSetMetadata "ds" "is"]).
Proof.
  destruct (metadata_failure_aborts (E:=scripted metadata_call_fails)
              posix_status
              example_args (initial_world metadata_call_fails) out_path
              (snd (main_setup example_args (initial_world metadata_call_fails)))
              (Exn "ResourceNotFoundException" "image set not found" true))
    as (w2 & _ & _ & Hstatus & _); [vm_compute; reflexivity .. |].
  destruct (Hstatus eq_refl) as [Hrun _].
  rewrite Hrun. f_equal.
  apply (f_equal snd) in Hrun. simpl in Hrun. rewrite <- Hrun.
  vm_compute. reflexivity.
Defined.

(** The status of the run is the interpreter's when what the metadata
    call raises is not an [Exception]: 0 for a [SystemExit()]. *)
Example metadata_call_exits_status :
  fst (run_main (E:=scripted metadata_call_exits) posix_status example_args
         (initial_world metadata_call_exits)) = 0.
Proof. vm_compute. reflexivity. Qed.

(** C8. Once the metadata document is resolved it is written, as
    [json.dump] renders it, to [metadata.json] in the output directory
    before the enumeration begins: when the metadata phase returns, the
    file holds the rendering of the very document the resolver returned,
    no frame has been requested yet, and the rest of the run (enumeration,
    loop, manifest) starts from that world.  Whatever happens afterwards,
    frame failures and exceptions included, the file still holds that
    text when the run ends. *)
Theorem metadata_is_persisted_first {E : Env} (args : Args) (w : world E)
    (output_path : Path) (w1 : world E) (metadata : json) (w3 : world E) :
  main_setup args w = (inr output_path, w1) ->
  main_metadata args output_path w1 = (inr metadata, w3) ->
  let metadata_path := path_str (path_join output_path "metadata.json") in
  (exists w2, get_image_set_metadata (datastore_id args) (image_set_id args) w1
              = (inr metadata, w2))
  /\ files w3 !! metadata_path = Some (FText (json_dumps E metadata))
  /\ (exists region_name,
        trace w3 = trace w ++ [EvMkdir (path_str output_path);
                               EvClient region_name;
                               EvGetImageSetMetadata (datastore_id args)
                                                     (image_set_id args);
                               EvOpen metadata_path;
                               EvWrite metadata_path
                                       (FText (json_dumps E metadata))])
  /\ main args w
     = (let! manifest := main_frames args output_path metadata in
        let! _ := save_manifest output_path (manifest_json manifest) in
        ret 0) w3
  /\ forall r w',
       main args w = (r, w') ->
       files w' !! metadata_path = Some (FText (json_dumps E metadata))
       /\ exists later, trace w' = trace w3 ++ later.
Proof.
  intros Hsetup Hmeta metadata_path.
  assert (main args w
          = (let! manifest := main_frames args output_path metadata in
             let! _ := save_manifest output_path (manifest_json manifest) in
             ret 0) w3) as Hmain.
  { unfold main. rewrite (bind_step _ _ _ _ _ Hsetup).
    by rewrite (bind_step _ _ _ _ _ Hmeta). }
  unfold main_metadata in Hmeta.
  apply bind_inr in Hmeta as (md & w2 & Hget & Hmeta).
  apply bind_inr in Hmeta as ([] & w2' & Hwrite & Hret).
  injection Hret as <- <-.
  apply write_file_inr in Hwrite as [Hfile Htrace3].
  split; [eauto |]. split; [done |].
  split.
  { apply main_setup_inr in Hsetup as (_ & _ & rn & Htrace1).
    apply get_image_set_metadata_effect in Hget as [_ Htrace2].
    exists rn. rewrite Htrace3, Htrace2, Htrace1.
    by rewrite <- !app_assoc. }
  split; [done |].
  intros r w' Hrun. rewrite Hmain in Hrun.
  assert (stable (E:=E) (keeps metadata_path)
            (let! manifest := main_frames args output_path md in
             let! _ := save_manifest output_path (manifest_json manifest) in
             ret 0)) as Hstable.
  { unfold main_frames, save_manifest. stable_keeps.
    - apply fetch_loop_keeps_metadata.
    - apply write_file_keeps. intros Heq. symmetry in Heq.
      by apply manifest_path_not_metadata in Heq. }
  destruct (Hstable _ _ _ Hrun) as [Hkeep Hlater].
  split; [by rewrite Hkeep | done].
Qed.

Lemma metadata_is_persisted_first_witness :
  files (snd (main (E:=scripted second_frame_fails) example_args
                (initial_world second_frame_fails)))
    !! "out/metadata.json"
  = Some (FText (render three_frames)).
Proof.
  pose (E := scripted second_frame_fails).
  pose (w0 := initial_world second_frame_fails).
  pose (w1 := snd (main_setup (E:=E) example_args w0)).
  pose (w3 := snd (main_metadata (E:=E) example_args out_path w1)).
  destruct (metadata_is_persisted_first (E:=E) example_args w0 out_path w1
              three_frames w3)
    as (_ & _ & _ & _ & Hend); [vm_compute; reflexivity .. |].
  apply (Hend (fst (main (E:=E) example_args w0))).
  apply surjective_pairing.
Defined.

(** ** Exit status and the manifest file *)

Lemma main_after_loop {E : Env} (args : Args) (w : world E) output_path
    metadata manifest w4 :
  loop_completes args w output_path metadata manifest w4 ->
  main args w
  = (let! _ := save_manifest output_path (manifest_json manifest) in ret 0) w4.
Proof.
  intros (w1 & w3 & Hsetup & Hmeta & Hframes). unfold main.
  rewrite (bind_step _ _ _ _ _ Hsetup), (bind_step _ _ _ _ _ Hmeta).
  by rewrite (bind_step _ _ _ _ _ Hframes).
Qed.

(** A run that returns went through the loop and wrote the manifest. *)
Lemma main_inr {E : Env} (args : Args) (w : world E) status w' :
  main args w = (inr status, w') ->
  status = 0
  /\ exists output_path metadata manifest w4,
       loop_completes args w output_path metadata manifest w4
       /\ save_manifest output_path (manifest_json manifest) w4 = (inr tt, w').
Proof.
  unfold main. intros H.
  apply bind_inr in H as (output_path & w1 & Hsetup & H).
  apply bind_inr in H as (metadata & w3 & Hmeta & H).
  apply bind_inr in H as (manifest & w4 & Hframes & H).
  apply bind_inr in H as ([] & w5 & Hsave & H).
  injection H as <- <-. split; [done |].
  exists output_path, metadata, manifest, w4. split; [| done].
  by exists w1, w3.
Qed.





(** C7. Round trip of the manifest.  For a run that completes (the loop
    returns and [manifest.json] is written), reading the file back, with
    a parser that inverts the serialiser on that manifest, yields a
    document whose [totalFrames] field equals the length of its [frames]
    list, and both equal the number of descriptors processed. *)
Theorem manifest_round_trip {E : Env} (args : Args) (w : world E)
    (output_path : Path) (metadata : json) (manifest : Manifest)
    (w4 w5 : world E) :
  loop_completes args w output_path metadata manifest w4 ->
  save_manifest output_path (manifest_json manifest) w4 = (inr tt, w5) ->
  json_loads E (json_dumps E (manifest_json manifest))
  = inr (manifest_json manifest) ->
  main args w = (inr 0, w5)
  /\ exists doc frames descriptors,
       read_json w5 (path_str (path_join output_path "manifest.json")) = inr doc
       /\ py_get doc "frames" JNull = inr (JList frames)
       /\ py_get doc "totalFrames" JNull = inr (JInt (Z.of_nat (length frames)))
       /\ extract_frame_ids metadata = inr descriptors
       /\ length frames = length (limit_frames (max_frames args) descriptors).
Proof.
  intros Hloop Hsave Hparse. split.
  - rewrite (main_after_loop _ _ _ _ _ _ Hloop). unfold bind. by rewrite Hsave.
  - destruct Hloop as (w1 & w3 & _ & _ & Hframes).
    apply main_frames_inr in Hframes as (descriptors & Hextract & Hrun).
    apply fetch_loop_entries in Hrun as (entries & Hfr & Hall & Htot & _).
    simpl in Hfr, Htot.
    apply write_file_inr in Hsave as [Hfile _].
    exists (manifest_json manifest), (m_frames manifest), descriptors.
    unfold read_json. rewrite Hfile, Hparse. simpl.
    rewrite Htot, Hfr. apply Forall2_length in Hall. rewrite Hall.
    by repeat split.
Qed.

Lemma manifest_round_trip_witness :
  main example_args demo_w0 = (inr 0, demo_w5)
  /\ exists doc frames descriptors,
       read_json demo_w5 (path_str (path_join out_path "manifest.json")) = inr doc
       /\ py_get doc "frames" JNull = inr (JList frames)
       /\ py_get doc "totalFrames" JNull = inr (JInt (Z.of_nat (length frames)))
       /\ extract_frame_ids three_frames = inr descriptors
       /\ length frames
          = length (limit_frames (max_frames example_args) descriptors).
Proof.
  apply (manifest_round_trip (E:=demo_env) example_args demo_w0 out_path
           three_frames expected_run demo_w4 demo_w5).
  - exists demo_w1, demo_w3. split; [| split]; vm_compute; reflexivity.
  - vm_compute. reflexivity.
  - vm_compute. reflexivity.
Defined.

(** ** Persisted frames *)

Lemma split_slash_plain (s : string) :
  contains_slash s = false -> split_slash s = [s].
Proof.
  induction s as [| c s IH]; simpl; [done |].
  intros [Hc Hs]%orb_false_elim. by rewrite Hc, IH.
Qed.

Lemma parse_path_plain (s : string) :
  contains_slash s = false -> is_component s = true ->
  parse_path s = MkPath EmptyString [s].
Proof.
  intros Hs Hc. unfold parse_path. rewrite split_slash_plain by done.
  simpl. rewrite Hc. f_equal.
  destruct s as [| c s]; [done |]. simpl in *.
  apply orb_false_elim in Hs as [-> _]. done.
Qed.

Lemma frame_filename_component {E : Env} (frame_info : FrameInfo) :
  is_component (frame_filename (E:=E) frame_info) = true.
Proof.
  pose proof (frame_filename_last (E:=E) frame_info) as Hlast.
  unfold is_component.
  destruct (frame_filename frame_info) as [| a [| b x]]; simpl in *;
    [discriminate | | by destruct (Ascii.eqb a _)].
  by injection Hlast as ->.
Qed.

(** X22. For every persisted frame whose file name
    [{seriesId}_{instanceId}_{frameId}.htj2k] holds no path separator:
    the payload returned by the service is written to the file of that
    name directly inside the output directory, and the success record
    appended to the manifest carries that file name and the number of
    bytes of the payload. *)
Theorem persisted_frame_record {E : Env} (args : Args) (output_path : Path)
    (frame_info : FrameInfo) (manifest : Manifest) (w : world E)
    (manifest' : Manifest) (w' : world E) :
  try_frame args output_path frame_info manifest w = (inr manifest', w') ->
  contains_slash (frame_filename (E:=E) frame_info) = false ->
  let filename :=
    seriesId frame_info +:+ "_" +:+ instanceId frame_info +:+ "_"
    +:+ format_value (E:=E) (frameId frame_info) +:+ ".htj2k" in
  let filepath := path_join output_path filename in
  path_parent filepath = output_path
  /\ path_name filepath = filename
  /\ exists frame_data w1 r,
       fetch_image_frame (datastore_id args) (image_set_id args)
                         (frameId frame_info) w = (inr frame_data, w1)
       /\ files w' !! path_str filepath = Some (FBytes frame_data)
       /\ m_frames manifest' = m_frames manifest ++ [r]
       /\ entry_for frame_info r
       /\ py_get r "filename" JNull = inr (JStr filename)
       /\ py_get r "size" JNull = inr (JInt (Z.of_nat (length frame_data))).
Proof.
  intros Htry Hplain filename filepath.
  change filename with (frame_filename (E:=E) frame_info) in *.
  assert (filepath = MkPath (path_root output_path)
                            (path_parts output_path
                             ++ [frame_filename (E:=E) frame_info])) as Hpath.
  { apply path_join_component, parse_path_plain; [done |].
    apply frame_filename_component. }
  assert (path_name filepath = frame_filename (E:=E) frame_info) as Hname.
  { rewrite Hpath. unfold path_name. simpl. apply last_last. }
  split; [| split; [done |]].
  { rewrite Hpath. unfold path_parent. simpl.
    rewrite removelast_last. by destruct output_path. }
  apply try_frame_inr in Htry as (frame_data & w1 & Hfetch & Hwrite & ->).
  apply write_file_inr in Hwrite as [Hfile _].
  exists frame_data, w1, (success_record frame_info filepath frame_data).
  repeat split; try done. simpl. by rewrite Hname.
Qed.

Lemma persisted_frame_record_witness :
  path_parent (path_join out_path "s1_i1_f1.htj2k") = out_path
  /\ path_name (path_join out_path "s1_i1_f1.htj2k") = "s1_i1_f1.htj2k".
Proof.
  destruct (persisted_frame_record (E:=demo_env) example_args out_path
              (MkFrameInfo (JStr "f1") "s1" "i1") (MkManifest "ds" "is" 3 [])
              demo_w3
              (append_frame (MkManifest "ds" "is" 3 [])
                 (success_record (MkFrameInfo (JStr "f1") "s1" "i1")
                    (path_join out_path "s1_i1_f1.htj2k")
                    (list_byte_of_string "f1")))
              (snd (try_frame (E:=demo_env) example_args out_path
                      (MkFrameInfo (JStr "f1") "s1" "i1")
                      (MkManifest "ds" "is" 3 []) demo_w3)))
    as (Hparent & Hname & _); [vm_compute; reflexivity .. |].
  split; [exact Hparent | exact Hname].
Defined.

(** C9, where the code departs from it.  [save_frame] joins the file
    name to the output directory without looking at it, and the record
    takes [filepath.name].  For the series identifier [/tmp/s1], which
    the enumeration yields for the document [absolute_series], the frame
    is persisted, but the file lands in [/tmp], outside the output
    directory [out], and the record carries the last component of the
    path, not the file name that was constructed. *)
Lemma save_frame_escapes_output_directory :
  let E := scripted absolute_series_served in
  let frame_info := MkFrameInfo (JStr "f1") "/tmp/s1" "i1" in
  let outcome :=
    try_frame (E:=E) example_args out_path frame_info
              (MkManifest "ds" "is" 1 []) (initial_world absolute_series_served) in
  extract_frame_ids absolute_series = inr [frame_info]
  /\ frame_filename (E:=E) frame_info = "/tmp/s1_i1_f1.htj2k"
  /\ fst outcome
     = inr (MkManifest "ds" "is" 1
              [JDict [("frameId", JStr "f1"); ("seriesId", JStr "/tmp/s1");
                      ("instanceId", JStr "i1");
                      ("filename", JStr "s1_i1_f1.htj2k"); ("size", JInt 2)]])
  /\ files (snd outcome) !! "/tmp/s1_i1_f1.htj2k"
     = Some (FBytes (list_byte_of_string "f1"))
  /\ path_str (path_join out_path (frame_filename (E:=E) frame_info))
     = "/tmp/s1_i1_f1.htj2k"
  /\ path_parent (path_join out_path (frame_filename (E:=E) frame_info))
     <> out_path
  /\ path_name (path_join out_path (frame_filename (E:=E) frame_info))
     <> frame_filename (E:=E) frame_info.
Proof.
  cbv zeta.
  split; [vm_compute; reflexivity |].
  split; [vm_compute; reflexivity |].
  split; [vm_compute; reflexivity |].
  split; [vm_compute; reflexivity |].
  split; [vm_compute; reflexivity |].
  split; vm_compute; discriminate.
Qed.

(** The run over [empty_identifier]: three frame references in the
    document, two entries in the manifest. *)
Example empty_identifier_manifest :
  frame_reference_count empty_identifier = 3%nat
  /\ (let* manifest :=
        fst (main_frames (E:=scripted empty_identifier_served) example_args
               out_path empty_identifier
               (initial_world empty_identifier_served)) in
      inr (m_totalFrames manifest, length (m_frames manifest)))
     = inr (2, 2%nat).
Proof. split; vm_compute; reflexivity. Qed.

(* ===================================================================== *)
(** * Further properties of the fetcher *)
(* ===================================================================== *)

(** ** Which documents the enumeration accepts *)

Lemma bind_exn_inl {A B : Type} (m : exn + A) (k : A -> exn + B) (e : exn) :
  bind_exn m k = inl e ->
  m = inl e \/ exists a, m = inr a /\ k a = inl e.
Proof. destruct m as [e' | a]; simpl; [intros [= ->] |]; eauto. Qed.

Lemma py_get_inl (v : json) (key : string) (dflt : json) (e : exn) :
  py_get v key dflt = inl e -> is_dict v = false /\ navigation_error e.
Proof.
  destruct v; simpl; try discriminate; intros [= <-]; repeat split; auto.
Qed.

Lemma py_items_inl (v : json) (e : exn) :
  py_items v = inl e -> is_dict v = false /\ navigation_error e.
Proof.
  destruct v; simpl; try discriminate; intros [= <-]; repeat split; auto.
Qed.

Lemma py_iter_inl (v : json) (e : exn) :
  py_iter v = inl e -> navigation_error e.
Proof.
  destruct v; simpl; try discriminate; intros [= <-]; repeat split; auto.
Qed.

Lemma frames_loop_inl (sid iid : string) (frames : list json) :
  forall acc e,
    frames_loop sid iid frames acc = inl e ->
    navigation_error e /\ forallb is_dict frames = false.
Proof.
  induction frames as [| frame rest IH]; intros acc e H; simpl in H;
    [discriminate |].
  apply bind_exn_inl in H as [H | (x & Hx & H)].
  - apply py_get_inl in H as [Hd He]. simpl. by rewrite Hd.
  - apply IH in H as [He Hrest]. simpl. by rewrite Hrest, andb_false_r.
Qed.

Lemma frames_loop_walk (sid iid : string) (frames : list json) :
  forall acc l,
    frames_loop sid iid frames acc = inr l -> forallb is_dict frames = true.
Proof.
  induction frames as [| frame rest IH]; intros acc l H; simpl in H; [done |].
  invert_bind_exn. apply py_get_inr in Ha as (d & -> & _).
  simpl. by eapply IH.
Qed.

Lemma instances_loop_walk (sid : string) (instances : list (string * json)) :
  forall acc l,
    instances_loop sid instances acc = inr l ->
    forallb (fun i => instance_walkable (snd i)) instances = true.
Proof.
  induction instances as [| [iid inst] rest IH]; intros acc l H; simpl in H;
    [done |].
  invert_bind_exn. apply py_get_inr in Ha as (d & -> & ->).
  simpl. rewrite (IH _ _ H), andb_true_r.
  pose proof (py_iter_frames _ _ _ _ _ _ Ha0 Ha1) as Hfr.
  apply frames_loop_walk in Ha1. unfold absent_or.
  destruct (dict_lookup d "ImageFrames") as [v |]; [| done].
  destruct v as [| | | | s | items | [| kv items]]; simpl in *;
    try discriminate; simplify_eq; try done.
  by destruct s.
Qed.

Lemma series_loop_walk (series : list (string * json)) :
  forall acc l,
    series_loop series acc = inr l ->
    forallb (fun s => series_walkable (snd s)) series = true.
Proof.
  induction series as [| [sid sd] rest IH]; intros acc l H; simpl in H; [done |].
  invert_bind_exn. apply py_get_inr in Ha as (d & -> & ->).
  apply py_items_inr in Ha0.
  simpl. rewrite (IH _ _ H), andb_true_r. unfold absent_or.
  destruct (dict_lookup d "Instances") as [v |]; [| done].
  subst v. by eapply instances_loop_walk.
Qed.

Lemma frames_loop_returns (sid iid : string) (frames : list json) :
  forallb is_dict frames = true ->
  forall acc, exists l, frames_loop sid iid frames acc = inr l.
Proof.
  induction frames as [| frame rest IH]; simpl; intros H acc; [eauto |].
  apply andb_prop in H as [Hf Hrest].
  destruct frame; try discriminate. simpl. apply IH, Hrest.
Qed.

Lemma instances_loop_returns (sid : string) (instances : list (string * json)) :
  forallb (fun i => instance_walkable (snd i)) instances = true ->
  forall acc, exists l, instances_loop sid instances acc = inr l.
Proof.
  induction instances as [| [iid inst] rest IH]; simpl; intros H acc; [eauto |].
  apply andb_prop in H as [Hi Hrest].
  destruct inst as [| | | | | | d]; simpl in Hi; try discriminate.
  unfold absent_or in Hi. simpl.
  destruct (dict_lookup d "ImageFrames") as [[| | | | s | frames | [| kv items]] |];
    try discriminate; simpl.
  - apply String.eqb_eq in Hi as ->. simpl. apply IH, Hrest.
  - destruct (frames_loop_returns sid iid frames Hi acc) as [l ->]. simpl.
    apply IH, Hrest.
  - apply IH, Hrest.
  - apply IH, Hrest.
Qed.

Lemma series_loop_returns (series : list (string * json)) :
  forallb (fun s => series_walkable (snd s)) series = true ->
  forall acc, exists l, series_loop series acc = inr l.
Proof.
  induction series as [| [sid sd] rest IH]; simpl; intros H acc; [eauto |].
  apply andb_prop in H as [Hs Hrest].
  destruct sd as [| | | | | | d]; simpl in Hs; try discriminate.
  unfold absent_or in Hs. simpl.
  destruct (dict_lookup d "Instances") as [[| | | | | | instances] |];
    try discriminate; simpl.
  - destruct (instances_loop_returns sid instances Hs acc) as [l ->]. simpl.
    apply IH, Hrest.
  - apply IH, Hrest.
Qed.

(** X1. [extract_frame_ids] returns exactly on the documents it can
    walk: the document, its ["Study"], its ["Series"], every series, its
    ["Instances"] and every instance are dictionaries where present, and
    every ["ImageFrames"] is a list of dictionaries (or an empty
    dictionary or string).  On any other document it raises. *)
Theorem extract_frame_ids_returns_iff_walkable (metadata : json) :
  (exists frame_ids, extract_frame_ids metadata = inr frame_ids)
  <-> walkable metadata = true.
Proof.
  split.
  - intros [l H]. unfold extract_frame_ids in H. invert_bind_exn.
    apply py_get_inr in Ha as (d & -> & ->).
    apply py_get_inr in Ha0 as (d' & Hd' & ->).
    apply py_items_inr in Ha1. apply series_loop_walk in H.
    simpl. unfold absent_or.
    destruct (dict_lookup d "Study") as [study |]; [| done].
    subst study. simpl. unfold absent_or.
    destruct (dict_lookup d' "Series") as [v |]; [| done]. by subst v.
  - destruct metadata as [| | | | | | d]; simpl; try discriminate.
    unfold absent_or, extract_frame_ids. simpl.
    destruct (dict_lookup d "Study") as [[| | | | | | study] |];
      try discriminate; simpl; [| eauto].
    unfold absent_or.
    destruct (dict_lookup study "Series") as [[| | | | | | series] |];
      try discriminate; simpl; [| eauto].
    intros H. apply series_loop_returns, H.
Qed.

Lemma instances_loop_inl (sid : string) (instances : list (string * json)) :
  forall acc e, instances_loop sid instances acc = inl e -> navigation_error e.
Proof.
  induction instances as [| [iid inst] rest IH]; intros acc e H; simpl in H;
    [discriminate |].
  apply bind_exn_inl in H as [H | (x & _ & H)]; [by apply py_get_inl in H as [_ ?] |].
  apply bind_exn_inl in H as [H | (y & _ & H)]; [by apply py_iter_inl in H |].
  apply bind_exn_inl in H as [H | (z & _ & H)]; [by apply frames_loop_inl in H as [? _] |].
  by eapply IH.
Qed.

Lemma series_loop_inl (series : list (string * json)) :
  forall acc e, series_loop series acc = inl e -> navigation_error e.
Proof.
  induction series as [| [sid sd] rest IH]; intros acc e H; simpl in H;
    [discriminate |].
  apply bind_exn_inl in H as [H | (x & _ & H)]; [by apply py_get_inl in H as [_ ?] |].
  apply bind_exn_inl in H as [H | (y & _ & H)]; [by apply py_items_inl in H as [_ ?] |].
  apply bind_exn_inl in H as [H | (z & _ & H)]; [by eapply instances_loop_inl |].
  by eapply IH.
Qed.

(** X2. Whatever [extract_frame_ids] raises is an [AttributeError] or a
    [TypeError], hence an [Exception]; and it raises on every document
    that is not a dictionary. *)
Theorem extract_frame_ids_raises_navigation_errors (metadata : json) (e : exn) :
  extract_frame_ids metadata = inl e ->
  navigation_error e
  /\ forall v, is_dict v = false ->
       extract_frame_ids v = inl (AttributeError v "get").
Proof.
  intros H. split.
  - unfold extract_frame_ids in H.
    apply bind_exn_inl in H as [H | (x & _ & H)]; [by apply py_get_inl in H as [_ ?] |].
    apply bind_exn_inl in H as [H | (y & _ & H)]; [by apply py_get_inl in H as [_ ?] |].
    apply bind_exn_inl in H as [H | (z & _ & H)]; [by apply py_items_inl in H as [_ ?] |].
    by eapply series_loop_inl.
  - intros v Hv. by destruct v.
Qed.

Lemma extract_frame_ids_raises_navigation_errors_witness :
  navigation_error (AttributeError (JList []) "get")
  /\ forall v, is_dict v = false ->
       extract_frame_ids v = inl (AttributeError v "get").
Proof.
  apply (extract_frame_ids_raises_navigation_errors (JList [])). reflexivity.
Defined.

(** ** Where descriptors come from *)

Lemma described_frames_provenance (metadata : json) :
  Forall (fun frame_info =>
            truthy (frameId frame_info) = true
            /\ from_document metadata frame_info)
         (described_frames metadata).
Proof.
  apply List.Forall_forall. intros fi Hin.
  unfold described_frames in Hin.
  apply in_flat_map in Hin as ([sid sd] & Hs & Hin).
  apply in_flat_map in Hin as ([iid inst] & Hi & Hin).
  apply in_flat_map in Hin as (frame & Hf & Hin). simpl in *.
  destruct (truthy (child frame "ID")) eqn:Ht; [| done].
  destruct Hin as [<- | []]. simpl. split; [done |].
  by exists sd, inst, frame.
Qed.

(** X3. Every descriptor [extract_frame_ids] returns has a truthy
    [frameId], and stems from the document: its [seriesId] is a key of
    ["Series"], its [instanceId] a key of that series' ["Instances"], and
    its [frameId] the ["ID"] of one of that instance's frame references.
    The enumeration invents nothing and never yields an empty
    identifier. *)
Theorem descriptors_stem_from_document (metadata : json)
    (frame_ids : list FrameInfo) :
  extract_frame_ids metadata = inr frame_ids ->
  Forall (fun frame_info =>
            truthy (frameId frame_info) = true
            /\ from_document metadata frame_info)
         frame_ids.
Proof.
  intros H. apply extract_frame_ids_spec in H as ->.
  apply described_frames_provenance.
Qed.

Lemma descriptors_stem_from_document_witness :
  Forall (fun frame_info =>
            truthy (frameId frame_info) = true
            /\ from_document empty_identifier frame_info)
         [MkFrameInfo (JStr "f1") "s1" "i1"; MkFrameInfo (JStr "f3") "s1" "i1"].
Proof.
  apply (descriptors_stem_from_document empty_identifier). reflexivity.
Defined.

(** ** Composition of the enumeration *)

Lemma series_loop_app (s1 s2 : list (string * json)) :
  forall acc,
    series_loop (s1 ++ s2) acc
    = let* frame_ids := series_loop s1 acc in series_loop s2 frame_ids.
Proof.
  induction s1 as [| [sid sd] rest IH]; intros acc; simpl; [done |].
  destruct (py_get sd "Instances" (JDict [])) as [e | instances]; simpl; [done |].
  destruct (py_items instances) as [e | items]; simpl; [done |].
  destruct (instances_loop sid items acc) as [e | acc']; simpl; [done |].
  apply IH.
Qed.

Lemma frames_loop_acc (sid iid : string) (frames : list json) :
  forall acc,
    frames_loop sid iid frames acc
    = let* frame_ids := frames_loop sid iid frames [] in inr (acc ++ frame_ids).
Proof.
  induction frames as [| frame rest IH]; intros acc; simpl.
  - by rewrite app_nil_r.
  - destruct (py_get frame "ID" JNull) as [e | frame_id]; simpl; [done |].
    destruct (truthy frame_id); simpl; [| apply IH].
    rewrite (IH (acc ++ _)), (IH [_]).
    destruct (frames_loop sid iid rest []) as [e | l]; simpl; [done |].
    by rewrite <- app_assoc.
Qed.

Lemma instances_loop_acc (sid : string) (instances : list (string * json)) :
  forall acc,
    instances_loop sid instances acc
    = let* frame_ids := instances_loop sid instances [] in inr (acc ++ frame_ids).
Proof.
  induction instances as [| [iid inst] rest IH]; intros acc; simpl.
  - by rewrite app_nil_r.
  - destruct (py_get inst "ImageFrames" (JList [])) as [e | v]; simpl; [done |].
    destruct (py_iter v) as [e | frames]; simpl; [done |].
    rewrite (frames_loop_acc _ _ _ acc).
    destruct (frames_loop sid iid frames []) as [e | l]; simpl; [done |].
    rewrite (IH (acc ++ l)), (IH l).
    destruct (instances_loop sid rest []) as [e | l']; simpl; [done |].
    by rewrite app_assoc.
Qed.

Lemma series_loop_acc (series : list (string * json)) :
  forall acc,
    series_loop series acc
    = let* frame_ids := series_loop series [] in inr (acc ++ frame_ids).
Proof.
  induction series as [| [sid sd] rest IH]; intros acc; simpl.
  - by rewrite app_nil_r.
  - destruct (py_get sd "Instances" (JDict [])) as [e | v]; simpl; [done |].
    destruct (py_items v) as [e | items]; simpl; [done |].
    rewrite (instances_loop_acc _ _ acc).
    destruct (instances_loop sid items []) as [e | l]; simpl; [done |].
    rewrite (IH (acc ++ l)), (IH l).
    destruct (series_loop rest []) as [e | l']; simpl; [done |].
    by rewrite app_assoc.
Qed.

Lemma extract_document_of_series (series : list (string * json)) :
  extract_frame_ids (document_of_series series) = series_loop series [].
Proof. reflexivity. Qed.

(** X4. The enumeration of a document is the concatenation of the
    enumerations of its series taken one at a time, in document order;
    it raises what the first series that cannot be walked raises. *)
Theorem enumeration_is_per_series (s1 s2 : list (string * json)) :
  extract_frame_ids (document_of_series (s1 ++ s2))
  = let* first := extract_frame_ids (document_of_series s1) in
    let* second := extract_frame_ids (document_of_series s2) in
    inr (first ++ second).
Proof.
  rewrite !extract_document_of_series, series_loop_app.
  destruct (series_loop s1 []) as [e | l]; simpl; [done |].
  apply series_loop_acc.
Qed.

(** X5. Missing levels are not errors.  A document without ["Study"],
    or a study without ["Series"], enumerates to the empty list; a series
    without ["Instances"] adds nothing to the enumeration of the other
    series, wherever it stands. *)
Theorem missing_levels_contribute_nothing (d : list (string * json))
    (sid : string) (s1 s2 : list (string * json)) :
  dict_lookup d "Instances" = None ->
  extract_frame_ids (document_of_series (s1 ++ (sid, JDict d) :: s2))
  = extract_frame_ids (document_of_series (s1 ++ s2))
  /\ (forall top, dict_lookup top "Study" = None ->
        extract_frame_ids (JDict top) = inr [])
  /\ (forall top study, dict_lookup top "Study" = Some (JDict study) ->
        dict_lookup study "Series" = None ->
        extract_frame_ids (JDict top) = inr []).
Proof.
  intros Hd. split; [| split].
  - rewrite !extract_document_of_series, !series_loop_app.
    destruct (series_loop s1 []) as [e | l]; simpl; [done |].
    by rewrite Hd.
  - intros top Htop. unfold extract_frame_ids. simpl. by rewrite Htop.
  - intros top study Htop Hstudy. unfold extract_frame_ids. simpl.
    rewrite Htop. simpl. by rewrite Hstudy.
Qed.

Lemma missing_levels_contribute_nothing_witness :
  extract_frame_ids
    (document_of_series
       ([("s0", JDict [])] ++ ("empty", JDict [("Modality", JStr "CT")]) :: []))
  = extract_frame_ids (document_of_series ([("s0", JDict [])] ++ [])).
Proof.
  destruct (missing_levels_contribute_nothing [("Modality", JStr "CT")] "empty"
              [("s0", JDict [])] []) as [H _]; [reflexivity | exact H].
Defined.

(** ** Truncation at the bounds *)

(** X6. A limit that is zero or negative, or at least the number of
    descriptors, keeps them all; whatever the limit, what is kept is a
    prefix of the enumeration, and limiting twice changes nothing. *)
Theorem limit_frames_out_of_range (frame_ids : list FrameInfo) (N : Z) :
  N <= 0 \/ Z.of_nat (length frame_ids) <= N ->
  limit_frames N frame_ids = frame_ids
  /\ (forall M l, exists dropped, l = limit_frames M l ++ dropped)
  /\ (forall M l, limit_frames M (limit_frames M l) = limit_frames M l).
Proof.
  assert (forall M l, limit_frames M l
                      = if 0 <? M then firstn (Z.to_nat M) l else l) as Hlimit.
  { intros M l. unfold limit_frames.
    destruct (Z.ltb_spec 0 M); [by apply py_slice_to_positive | done]. }
  intros Hrange. split; [| split].
  - rewrite Hlimit. destruct (Z.ltb_spec 0 N); [| done].
    apply firstn_all2. lia.
  - intros M l. rewrite Hlimit. destruct (0 <? M).
    + exists (skipn (Z.to_nat M) l). symmetry. apply firstn_skipn.
    + exists []. by rewrite app_nil_r.
  - intros M l. rewrite !Hlimit. destruct (0 <? M); [| done].
    rewrite firstn_firstn. f_equal. lia.
Qed.

Lemma limit_frames_out_of_range_witness :
  limit_frames (-3) [MkFrameInfo (JStr "f1") "s1" "i1";
                     MkFrameInfo (JStr "f2") "s1" "i1"]
  = [MkFrameInfo (JStr "f1") "s1" "i1"; MkFrameInfo (JStr "f2") "s1" "i1"].
Proof.
  destruct (limit_frames_out_of_range
              [MkFrameInfo (JStr "f1") "s1" "i1";
               MkFrameInfo (JStr "f2") "s1" "i1"] (-3)) as [H _];
    [left; lia | exact H].
Defined.

(** ** Requests made by the loop *)

Lemma frame_requests_app (t1 t2 : list event) :
  frame_requests (t1 ++ t2) = frame_requests t1 ++ frame_requests t2.
Proof. apply List.filter_app. Qed.

Ltac run_frame H :=
  unfold process_frame, try_except, try_frame, save_frame, write_file,
    fetch_image_frame in H;
  run_steps H.

Lemma process_frame_requests {E : Env} args output_path frame_info manifest
    (w : world E) r w' :
  process_frame args output_path frame_info manifest w = (r, w') ->
  frame_requests (trace w')
  = frame_requests (trace w)
    ++ [EvGetImageFrame (datastore_id args) (image_set_id args)
                        (frameId frame_info)].
Proof.
  intros H. run_frame H.
  all: by rewrite ?frame_requests_app; simpl; rewrite ?app_nil_r.
Qed.

(** X7. The loop asks the service for each descriptor exactly once, in
    enumeration order, whether the frame then succeeds or fails: there is
    no retry and no skipping.  If the loop is cut short by an exception
    it does not catch, the requests made are those of the descriptors
    reached so far. *)
Theorem one_request_per_descriptor {E : Env} (args : Args) (output_path : Path)
    (frame_ids : list FrameInfo) :
  forall (manifest : Manifest) (w : world E) r w',
    fetch_loop args output_path frame_ids manifest w = (r, w') ->
    exists reached rest,
      frame_ids = reached ++ rest
      /\ frame_requests (trace w')
         = frame_requests (trace w)
           ++ map (fun d => EvGetImageFrame (datastore_id args)
                              (image_set_id args) (frameId d)) reached
      /\ match r with inr _ => rest = [] | inl _ => reached <> [] end.
Proof.
  induction frame_ids as [| frame_info others IH]; intros manifest w r w' H.
  - injection H as <- <-. exists [], [].
    split; [done |]. split; [simpl; by rewrite app_nil_r | done].
  - simpl in H. unfold bind in H.
    destruct (process_frame _ _ _ _ w) as [[e | m1] w1] eqn:Hstep.
    + injection H as <- <-. apply process_frame_requests in Hstep.
      exists [frame_info], others.
      split; [done |]. split; [exact Hstep | done].
    + apply process_frame_requests in Hstep.
      apply IH in H as (reached & rest & -> & Hreq & Hr).
      exists (frame_info :: reached), rest. split; [done |].
      split; [by rewrite Hreq, Hstep, <- app_assoc |].
      by destruct r.
Qed.

Lemma one_request_per_descriptor_witness :
  frame_requests (trace demo_w4)
  = [EvGetImageFrame "ds" "is" (JStr "f1"); EvGetImageFrame "ds" "is" (JStr "f2");
     EvGetImageFrame "ds" "is" (JStr "f3")].
Proof.
  destruct (one_request_per_descriptor (E:=demo_env) example_args out_path
              [MkFrameInfo (JStr "f1") "s1" "i1"; MkFrameInfo (JStr "f2") "s1" "i1";
               MkFrameInfo (JStr "f3") "s1" "i1"]
              (MkManifest "ds" "is" 3 []) demo_w3 (inr expected_run) demo_w4)
    as (reached & rest & Hsplit & Hreq & ->); [vm_compute; reflexivity |].
  rewrite app_nil_r in Hsplit. subst reached. rewrite Hreq.
  vm_compute. reflexivity.
Defined.

(** ** Files the loop leaves alone *)

Lemma untouched_refl {E : Env} (p : string) (w : world E) : untouched p w w.
Proof. split; [done |]. exists []. by rewrite app_nil_r. Qed.

Lemma untouched_trans {E : Env} (p : string) (w1 w2 w3 : world E) :
  untouched p w1 w2 -> untouched p w2 w3 -> untouched p w1 w3.
Proof.
  intros [Hf1 (l1 & Ht1 & Hl1)] [Hf2 (l2 & Ht2 & Hl2)]. split; [congruence |].
  exists (l1 ++ l2). split; [by rewrite Ht2, Ht1, app_assoc |].
  by apply Forall_app.
Qed.

Ltac stable_untouched :=
  repeat match goal with
         | |- stable _ (ret _) => apply stable_ret, untouched_refl
         | |- stable _ (lift _) => apply stable_lift, untouched_refl
         | |- stable _ (bind _ _) =>
             apply stable_bind; [apply untouched_trans | | intros ?]
         | |- stable _ (try_except _ _) =>
             apply stable_try_except; [apply untouched_trans | | intros ?]
         end.

Lemma write_file_untouched {E : Env} (p path : string) (content : file) :
  p <> path -> stable (E:=E) (untouched p) (write_file path content).
Proof.
  intros Hne w r w' H.
  assert (String.eqb path p = false) as Hneq by (apply String.eqb_neq; congruence).
  unfold write_file in H. run_steps H.
  all: split; simpl; [by rewrite ?lookup_insert_ne by congruence |].
  all: rewrite <- ?app_assoc; eexists; split; [reflexivity |].
  all: repeat constructor; done.
Qed.

Lemma fetch_image_frame_untouched {E : Env} (p ds iset : string) (frame_id : json) :
  stable (E:=E) (untouched p) (fetch_image_frame ds iset frame_id).
Proof.
  intros w r w' H. unfold fetch_image_frame in H. run_steps H.
  split; [done |]. eexists. split; [reflexivity |]. by repeat constructor.
Qed.

Lemma frame_path_differs {E : Env} (p : string) (output_path : Path)
    (frame_info : FrameInfo) :
  string_last p <> Some "k"%char ->
  p <> path_str (path_join output_path (frame_filename (E:=E) frame_info)).
Proof. intros Hp ->. apply Hp, frame_path_last. Qed.

Lemma fetch_loop_untouched {E : Env} (args : Args) (output_path : Path)
    (p : string) (frame_ids : list FrameInfo) :
  string_last p <> Some "k"%char ->
  forall manifest,
    stable (E:=E) (untouched p) (fetch_loop args output_path frame_ids manifest).
Proof.
  intros Hp. induction frame_ids as [| frame_info rest IH]; intros manifest.
  - apply (stable_ret (untouched p) (untouched_refl p)).
  - change (stable (E:=E) (untouched p)
              (let! m1 := process_frame args output_path frame_info manifest in
               fetch_loop args output_path rest m1)).
    apply stable_bind; [apply untouched_trans | | exact IH].
    unfold process_frame, try_frame, save_frame. stable_untouched.
    + apply fetch_image_frame_untouched.
    + by apply write_file_untouched, frame_path_differs.
Qed.

(** X8. The loop only ever opens and writes files whose path ends in
    [k] (the frame files, [....htj2k]): this holds of every file event it
    adds to the trace, and any file whose path does not end in [k], in
    the output directory or elsewhere, keeps its content, whether the
    loop returns or is cut short. *)
Theorem loop_writes_only_frame_files {E : Env} (args : Args) (output_path : Path)
    (frame_ids : list FrameInfo) (manifest : Manifest) (w : world E)
    (r : exn + Manifest) (w' : world E) :
  fetch_loop args output_path frame_ids manifest w = (r, w') ->
  (exists later, trace w' = trace w ++ later /\ Forall on_frame_file later)
  /\ (forall p, string_last p <> Some "k"%char ->
        files w' !! p = files w !! p).
Proof.
  intros H. split.
  - destruct (fetch_loop_untouched args output_path EmptyString frame_ids
                ltac:(discriminate) manifest _ _ _ H)
      as [_ (later & Htrace & _)].
    exists later. split; [done |].
    apply List.Forall_forall. intros ev Hev.
    assert (forall q, touches q ev = true -> string_last q = Some "k"%char)
      as Hq.
    { intros q Hq.
      destruct (decide (string_last q = Some "k"%char)) as [| Hne]; [done |].
      destruct (fetch_loop_untouched args output_path q frame_ids Hne
                  manifest _ _ _ H) as [_ (later' & Htrace' & Hnone)].
      rewrite Htrace in Htrace'. apply app_inv_head in Htrace'. subst later'.
      rewrite List.Forall_forall in Hnone. apply Hnone in Hev. congruence. }
    destruct ev; simpl; try done; apply Hq; simpl; apply String.eqb_refl.
  - intros p Hp.
    by destruct (fetch_loop_untouched args output_path p frame_ids Hp
                   manifest _ _ _ H) as [? _].
Qed.

Lemma loop_writes_only_frame_files_witness :
  files demo_w4 !! "out/metadata.json" = files demo_w3 !! "out/metadata.json".
Proof.
  destruct (loop_writes_only_frame_files (E:=demo_env) example_args out_path
              [MkFrameInfo (JStr "f1") "s1" "i1"; MkFrameInfo (JStr "f2") "s1" "i1";
               MkFrameInfo (JStr "f3") "s1" "i1"]
              (MkManifest "ds" "is" 3 []) demo_w3 (inr expected_run) demo_w4)
    as [_ Hkeep]; [vm_compute; reflexivity |].
  apply Hkeep. vm_compute. discriminate.
Defined.

(** ** Frames that fail *)

Lemma failed_request_step {E : Env} args output_path frame_info manifest
    (w : world E) e h' :
  client_get_image_frame E (datastore_id args) (image_set_id args)
    (frameId frame_info) (hidden w) = (inl e, h') ->
  exn_is_Exception e = true ->
  process_frame args output_path frame_info manifest w
  = (inr (append_frame manifest (error_record frame_info e)),
     MkWorld h' (files w)
       (trace w ++ [EvGetImageFrame (datastore_id args) (image_set_id args)
                                    (frameId frame_info)])).
Proof.
  intros Hcall He.
  unfold process_frame, try_except, try_frame, fetch_image_frame, bind,
    log_event, env_call. simpl.
  by rewrite Hcall, He.
Qed.

(** X9. When the request for every descriptor fails with an exception,
    the loop still runs to completion: the manifest gets one error
    record per descriptor, in order, each with the message of its
    exception, and no file is created or changed. *)
Theorem all_requests_failing {E : Env} (args : Args) (output_path : Path)
    (frame_ids : list FrameInfo) :
  Forall (fun d => forall h, exists e h',
            client_get_image_frame E (datastore_id args) (image_set_id args)
              (frameId d) h = (inl e, h')
            /\ exn_is_Exception e = true) frame_ids ->
  forall (manifest : Manifest) (w : world E),
  exists manifest' w' entries,
    fetch_loop args output_path frame_ids manifest w = (inr manifest', w')
    /\ files w' = files w
    /\ m_frames manifest' = m_frames manifest ++ entries
    /\ Forall2 (fun d r => exists e, r = error_record d e
                                     /\ is_error_record r = true)
               frame_ids entries.
Proof.
  induction 1 as [| d rest Hd _ IH]; intros manifest w.
  - exists manifest, w, []. simpl. by rewrite app_nil_r.
  - destruct (Hd (hidden w)) as (e & h' & Hcall & He).
    pose proof (failed_request_step args output_path d manifest w e h' Hcall He)
      as Hstep.
    destruct (IH (append_frame manifest (error_record d e))
                (MkWorld h' (files w)
                   (trace w ++ [EvGetImageFrame (datastore_id args)
                                  (image_set_id args) (frameId d)])))
      as (m' & w' & entries & Hloop & Hfiles & Hfr & Hall).
    exists m', w', (error_record d e :: entries).
    split; [simpl; by rewrite (bind_step _ _ _ _ _ Hstep) |].
    split; [done |]. simpl in Hfr.
    split; [by rewrite Hfr, <- app_assoc |].
    constructor; [by exists e | done].
Qed.

Lemma all_requests_failing_witness :
  exists manifest' w' entries,
    fetch_loop (E:=scripted all_frames_refused) example_args out_path
      [MkFrameInfo (JStr "f1") "s1" "i1"; MkFrameInfo (JStr "f2") "s1" "i1";
       MkFrameInfo (JStr "f3") "s1" "i1"]
      (MkManifest "ds" "is" 3 []) (initial_world all_frames_refused)
    = (inr manifest', w')
    /\ files w' = files (initial_world all_frames_refused)
    /\ m_frames manifest' = [] ++ entries
    /\ Forall2 (fun d r => exists e, r = error_record d e
                                     /\ is_error_record r = true)
         [MkFrameInfo (JStr "f1") "s1" "i1"; MkFrameInfo (JStr "f2") "s1" "i1";
          MkFrameInfo (JStr "f3") "s1" "i1"] entries.
Proof.
  apply (all_requests_failing (E:=scripted all_frames_refused) example_args
           out_path).
  repeat constructor; intros h; eexists _, _; split; reflexivity.
Defined.

(** ** File names that coincide *)

(** X10. The file name does not determine the descriptor: the separator
    [_] may occur inside identifiers, so different descriptors can share
    a name.  When two frames with the same file name are both persisted,
    the file holds the payload of the later one only, while the manifest
    lists both as successes under that one name. *)
Theorem same_name_overwrites {E : Env} (args : Args) (output_path : Path)
    (d1 d2 : FrameInfo) (manifest m1 m2 : Manifest) (w w1 w2 : world E) :
  frame_filename (E:=E) d1 = frame_filename (E:=E) d2 ->
  try_frame args output_path d1 manifest w = (inr m1, w1) ->
  try_frame args output_path d2 m1 w1 = (inr m2, w2) ->
  (exists data2 w1' r1 r2,
     fetch_image_frame (datastore_id args) (image_set_id args) (frameId d2) w1
     = (inr data2, w1')
     /\ files w2 !! path_str (path_join output_path (frame_filename (E:=E) d1))
        = Some (FBytes data2)
     /\ m_frames m2 = m_frames manifest ++ [r1; r2]
     /\ is_success_record r1 = true /\ is_success_record r2 = true
     /\ py_get r1 "filename" JNull = py_get r2 "filename" JNull)
  /\ (forall frame_id s t i,
        frame_filename (E:=E) (MkFrameInfo frame_id (s +:+ "_" +:+ t) i)
        = frame_filename (E:=E) (MkFrameInfo frame_id s (t +:+ "_" +:+ i))).
Proof.
  intros Hname H1 H2. split.
  - apply try_frame_inr in H1 as (data1 & w' & _ & _ & ->).
    apply try_frame_inr in H2 as (data2 & w1' & Hfetch & Hwrite & ->).
    apply write_file_inr in Hwrite as [Hfile _].
    eexists data2, w1', _, _. split; [done |].
    split; [by rewrite Hname |].
    split; [simpl; by rewrite <- app_assoc |].
    split; [done |]. split; [done |]. simpl. by rewrite Hname.
  - intros frame_id s t i. unfold frame_filename. simpl.
    by rewrite !append_assoc.
Qed.

Lemma same_name_overwrites_witness :
  frame_filename (E:=demo_env) (MkFrameInfo (JStr "f") "a_b" "c") = "a_b_c_f.htj2k"
  /\ files (snd (try_frame (E:=demo_env) example_args out_path
                   (MkFrameInfo (JStr "f") "a" "b_c")
                   (MkManifest "ds" "is" 2 [])
                   (snd (try_frame (E:=demo_env) example_args out_path
                           (MkFrameInfo (JStr "f") "a_b" "c")
                           (MkManifest "ds" "is" 2 []) demo_w3))))
       !! "out/a_b_c_f.htj2k"
     = Some (FBytes (list_byte_of_string "f")).
Proof.
  split; [reflexivity |].
  pose (d1 := MkFrameInfo (JStr "f") "a_b" "c").
  pose (d2 := MkFrameInfo (JStr "f") "a" "b_c").
  pose (m0 := MkManifest "ds" "is" 2 []).
  pose (r1 := try_frame (E:=demo_env) example_args out_path d1 m0 demo_w3).
  pose (m1 := append_frame m0 (success_record d1
                (path_join out_path "a_b_c_f.htj2k") (list_byte_of_string "f"))).
  pose (r2 := try_frame (E:=demo_env) example_args out_path d2 m0 (snd r1)).
  destruct (same_name_overwrites (E:=demo_env) example_args out_path d1 d2
              m0 m1
              (append_frame m1 (success_record d2
                 (path_join out_path "a_b_c_f.htj2k") (list_byte_of_string "f")))
              demo_w3 (snd r1)
              (snd (try_frame (E:=demo_env) example_args out_path d2 m1 (snd r1))))
    as [(data2 & w1' & ra & rb & Hfetch & Hfile & _) _];
    [vm_compute; reflexivity .. |].
  vm_compute. reflexivity.
Defined.

(** ** Runs that abort *)

Lemma main_setup_inl {E : Env} (args : Args) (w : world E) e w1 :
  main_setup args w = (inl e, w1) ->
  files w1 = files w
  /\ exists later,
       trace w1 = trace w ++ later
       /\ (later = [EvMkdir (path_str (parse_path (output_dir args)))]
           \/ exists region_name,
                later = [EvMkdir (path_str (parse_path (output_dir args)));
                         EvClient region_name]).
Proof.
  unfold main_setup, get_medical_imaging_client. intros H. run_steps H.
  all: split; [done |]; rewrite <- ?app_assoc; eauto 6.
Qed.

(** X11. When the output directory cannot be created, or the client
    cannot be built, the run ends there with that exception: nothing has
    been asked of the imaging service, and no file has been written.
    The exit status is that of the exception: 1 when it is an
    [Exception]. *)
Theorem setup_failure_aborts {E : Env} (interpreter_status : exn -> Z)
    (args : Args) (w : world E) (e : exn) (w1 : world E) :
  main_setup args w = (inl e, w1) ->
  main args w = (inl e, w1)
  /\ run_main interpreter_status args w
     = (uncaught_status interpreter_status e, w1)
  /\ (exn_is_Exception e = true ->
      run_main interpreter_status args w = (1, w1))
  /\ files w1 = files w
  /\ exists later,
       trace w1 = trace w ++ later
       /\ (later = [EvMkdir (path_str (parse_path (output_dir args)))]
           \/ exists region_name,
                later = [EvMkdir (path_str (parse_path (output_dir args)));
                         EvClient region_name]).
Proof.
  intros Hsetup.
  assert (main args w = (inl e, w1)) as Hmain
    by (unfold main; by apply bind_abort).
  split; [done |].
  unfold run_main, uncaught_status. rewrite Hmain. split; [done |].
  split; [by intros -> |].
  exact (main_setup_inl _ _ _ _ Hsetup).
Qed.

Lemma setup_failure_aborts_witness :
  run_main (E:=with_failing_mkdir demo_env PermissionError) posix_status
           example_args
           (MkWorld (O : env_state (with_failing_mkdir demo_env PermissionError))
                    ∅ [])
  = (1, MkWorld (O : env_state (with_failing_mkdir demo_env PermissionError))
                ∅ [EvMkdir "out"]).
Proof.
  destruct (setup_failure_aborts
              (E:=with_failing_mkdir demo_env PermissionError) posix_status
              example_args
              (MkWorld (O : env_state (with_failing_mkdir demo_env PermissionError))
                       ∅ [])
              PermissionError
              (MkWorld (O : env_state (with_failing_mkdir demo_env PermissionError))
                       ∅ [EvMkdir "out"]))
    as (_ & _ & Hstatus & _); [vm_compute; reflexivity |].
  exact (Hstatus eq_refl).
Defined.

Lemma main_metadata_effect {E : Env} (args : Args) (output_path : Path)
    (p : string) (w1 : world E) r w3 :
  p <> path_str (path_join output_path "metadata.json") ->
  main_metadata args output_path w1 = (r, w3) ->
  untouched p w1 w3
  /\ frame_requests (trace w3) = frame_requests (trace w1).
Proof.
  intros Hp H.
  assert (String.eqb (path_str (path_join output_path "metadata.json")) p = false)
    as Hneq by (apply String.eqb_neq; congruence).
  unfold main_metadata, get_image_set_metadata, write_file in H. run_steps H.
  all: split;
    [ split; simpl; [by rewrite ?lookup_insert_ne by congruence |];
      rewrite <- ?app_assoc; eexists; (split; [reflexivity |]);
      repeat constructor; done
    | by rewrite ?frame_requests_app; simpl; rewrite ?app_nil_r ].
Qed.

Lemma manifest_path_differs (output_path : Path) :
  path_str (path_join output_path "manifest.json")
  <> path_str (path_join output_path "metadata.json").
Proof. apply manifest_path_not_metadata. Qed.

Lemma extract_frame_ids_inl (metadata : json) (e : exn) :
  extract_frame_ids metadata = inl e -> navigation_error e.
Proof.
  unfold extract_frame_ids. intros H.
  apply bind_exn_inl in H as [H | (x & _ & H)];
    [by apply py_get_inl in H as [_ ?] |].
  apply bind_exn_inl in H as [H | (y & _ & H)];
    [by apply py_get_inl in H as [_ ?] |].
  apply bind_exn_inl in H as [H | (z & _ & H)];
    [by apply py_items_inl in H as [_ ?] |].
  by eapply series_loop_inl.
Qed.

(** X12. A metadata document the enumeration cannot walk stops the run
    after it was saved: the run ends with the navigation error and exit
    status 1, [metadata.json] holds the document, no frame has been
    requested, and [manifest.json] has not been touched. *)
Theorem unwalkable_document_aborts {E : Env} (interpreter_status : exn -> Z)
    (args : Args) (w : world E)
    (output_path : Path) (w1 : world E) (metadata : json) (w3 : world E)
    (e : exn) :
  main_setup args w = (inr output_path, w1) ->
  main_metadata args output_path w1 = (inr metadata, w3) ->
  extract_frame_ids metadata = inl e ->
  main args w = (inl e, w3)
  /\ run_main interpreter_status args w = (1, w3)
  /\ files w3 !! path_str (path_join output_path "metadata.json")
     = Some (FText (json_dumps E metadata))
  /\ files w3 !! path_str (path_join output_path "manifest.json")
     = files w !! path_str (path_join output_path "manifest.json")
  /\ frame_requests (trace w3) = frame_requests (trace w).
Proof.
  intros Hsetup Hmeta Hextract.
  assert (main args w = (inl e, w3)) as Hmain.
  { unfold main. rewrite (bind_step _ _ _ _ _ Hsetup).
    rewrite (bind_step _ _ _ _ _ Hmeta).
    apply bind_abort. unfold main_frames. apply bind_abort.
    unfold lift. by rewrite Hextract. }
  split; [done |].
  split.
  { apply extract_frame_ids_inl in Hextract as [He _].
    unfold run_main, uncaught_status. by rewrite Hmain, He. }
  destruct (main_metadata_effect args output_path _ w1 _ w3
              (manifest_path_differs output_path) Hmeta) as [[Hkeep _] Hreq].
  apply main_setup_inr in Hsetup as (_ & Hfiles & rn & Htrace).
  split; [| split].
  - unfold main_metadata in Hmeta.
    apply bind_inr in Hmeta as (md & w2 & _ & Hmeta).
    apply bind_inr in Hmeta as ([] & w2' & Hwrite & Hret).
    injection Hret as <- <-. by apply write_file_inr in Hwrite as [? _].
  - by rewrite Hkeep, Hfiles.
  - rewrite Hreq, Htrace, frame_requests_app. simpl. by rewrite app_nil_r.
Qed.

Lemma unwalkable_document_aborts_witness :
  run_main (E:=scripted list_document_served) posix_status example_args
           (initial_world list_document_served)
  = (1, snd (main_metadata (E:=scripted list_document_served) example_args out_path
               (snd (main_setup (E:=scripted list_document_served) example_args
                       (initial_world list_document_served))))).
Proof.
  apply (unwalkable_document_aborts (E:=scripted list_document_served)
           posix_status
           example_args (initial_world list_document_served) out_path
           (snd (main_setup (E:=scripted list_document_served) example_args
                   (initial_world list_document_served)))
           (JList []) _ (AttributeError (JList []) "get")).
  - vm_compute. reflexivity.
  - vm_compute. reflexivity.
  - reflexivity.
Defined.

Lemma well_known_path_last (output_path : Path) (name : string) (c : ascii) :
  parse_path name = MkPath EmptyString [name] ->
  string_last name = Some c ->
  string_last (path_str (path_join output_path name)) = Some c.
Proof.
  intros Hname Hc. rewrite path_join_component by done.
  destruct (path_str_snoc (path_root output_path) (path_parts output_path))
    as [prefix ->].
  by apply string_last_app.
Qed.

Lemma main_frames_untouched {E : Env} (args : Args) (output_path : Path)
    (metadata : json) (p : string) :
  string_last p <> Some "k"%char ->
  stable (E:=E) (untouched p) (main_frames args output_path metadata).
Proof.
  intros Hp. unfold main_frames. stable_untouched.
  by apply fetch_loop_untouched.
Qed.

(** X13. When the loop is cut short by an exception, which is then not
    an [Exception] (the only kind the loop lets through), the run ends
    with it without writing a manifest: [manifest.json] is as it was
    before the run, while [metadata.json] holds the document.  The exit
    status is the one the interpreter gives that exception (130 for a
    [KeyboardInterrupt] on a POSIX system). *)
Theorem interrupted_loop_leaves_no_manifest {E : Env}
    (interpreter_status : exn -> Z) (args : Args)
    (w : world E) (output_path : Path) (w1 : world E) (metadata : json)
    (w3 : world E) (descriptors : list FrameInfo) (e : exn) (w4 : world E) :
  main_setup args w = (inr output_path, w1) ->
  main_metadata args output_path w1 = (inr metadata, w3) ->
  extract_frame_ids metadata = inr descriptors ->
  main_frames args output_path metadata w3 = (inl e, w4) ->
  exn_is_Exception e = false
  /\ main args w = (inl e, w4)
  /\ run_main interpreter_status args w = (interpreter_status e, w4)
  /\ files w4 !! path_str (path_join output_path "manifest.json")
     = files w !! path_str (path_join output_path "manifest.json")
  /\ files w4 !! path_str (path_join output_path "metadata.json")
     = Some (FText (json_dumps E metadata)).
Proof.
  intros Hsetup Hmeta Hextract Hframes.
  assert (main args w = (inl e, w4)) as Hmain.
  { unfold main. rewrite (bind_step _ _ _ _ _ Hsetup).
    rewrite (bind_step _ _ _ _ _ Hmeta). by apply bind_abort. }
  assert (exn_is_Exception e = false) as He.
  { unfold main_frames, bind, lift in Hframes. rewrite Hextract in Hframes.
    by eapply fetch_loop_inl. }
  split; [done |]. split; [done |].
  split; [unfold run_main, uncaught_status; by rewrite Hmain, He |].
  destruct (main_metadata_effect args output_path _ w1 _ w3
              (manifest_path_differs output_path) Hmeta) as [[Hkeep _] _].
  apply main_setup_inr in Hsetup as (_ & Hfiles & _).
  split.
  - assert (string_last (path_str (path_join output_path "manifest.json"))
            <> Some "k"%char) as Hp
      by (by rewrite (well_known_path_last _ "manifest.json" "n"%char)).
    destruct (main_frames_untouched args output_path metadata _ Hp _ _ _ Hframes)
      as [Hloop _].
    by rewrite Hloop, Hkeep, Hfiles.
  - assert (string_last (path_str (path_join output_path "metadata.json"))
            <> Some "k"%char) as Hp
      by (by rewrite (well_known_path_last _ "metadata.json" "n"%char)).
    destruct (main_frames_untouched args output_path metadata _ Hp _ _ _ Hframes)
      as [Hloop _].
    rewrite Hloop. unfold main_metadata in Hmeta.
    apply bind_inr in Hmeta as (md & w2 & _ & Hmeta).
    apply bind_inr in Hmeta as ([] & w2' & Hwrite & Hret).
    injection Hret as <- <-. by apply write_file_inr in Hwrite as [? _].
Qed.

Lemma interrupted_loop_leaves_no_manifest_witness :
  run_main posix_status example_args interrupted_w0 = (130, interrupted_w4)
  /\ files interrupted_w4 !! "out/manifest.json" = None
  /\ files interrupted_w4 !! "out/s1_i1_f1.htj2k"
     = Some (FBytes (list_byte_of_string "f1")).
Proof.
  destruct (interrupted_loop_leaves_no_manifest (E:=interrupted_env)
              posix_status example_args interrupted_w0 out_path interrupted_w1 three_frames
              interrupted_w3
              [MkFrameInfo (JStr "f1") "s1" "i1"; MkFrameInfo (JStr "f2") "s1" "i1";
               MkFrameInfo (JStr "f3") "s1" "i1"]
              KeyboardInterrupt interrupted_w4)
    as (_ & _ & Hrun & Hmanifest & _); [vm_compute; reflexivity .. |].
  split; [exact Hrun |]. split; [| vm_compute; reflexivity].
  etrans; [exact Hmanifest |]. reflexivity.
Defined.

(** ** The manifest file *)

Lemma main_setup_untouched {E : Env} (args : Args) (p : string) :
  stable (E:=E) (untouched p) (main_setup args).
Proof.
  intros w r w1 H. unfold main_setup, get_medical_imaging_client in H.
  run_steps H.
  all: split; [done |]; rewrite <- ?app_assoc; eexists;
    (split; [reflexivity |]); by repeat constructor.
Qed.

(** X14. A run that returns writes the manifest once, as its very last
    action: the events of the run end with the opening and the writing
    of [manifest.json] in the output directory and none before concerns
    that file.  The manifest written carries the datastore and image-set
    identifiers of the command line. *)
Theorem manifest_is_written_last {E : Env} (args : Args) (w : world E)
    (status : Z) (w' : world E) :
  main args w = (inr status, w') ->
  let manifest_path :=
    path_str (path_join (parse_path (output_dir args)) "manifest.json") in
  exists manifest events,
    trace w' = trace w ++ events
               ++ [EvOpen manifest_path;
                   EvWrite manifest_path
                           (FText (json_dumps E (manifest_json manifest)))]
    /\ Forall (fun ev => touches manifest_path ev = false) events
    /\ files w' !! manifest_path
       = Some (FText (json_dumps E (manifest_json manifest)))
    /\ m_datastoreId manifest = datastore_id args
    /\ m_imageSetId manifest = image_set_id args.
Proof.
  intros Hmain manifest_path.
  apply main_inr in Hmain
    as (_ & output_path & metadata & manifest & w4 & Hloop & Hsave).
  destruct Hloop as (w1 & w3 & Hsetup & Hmeta & Hframes).
  pose proof (main_setup_untouched args manifest_path _ _ _ Hsetup) as H1.
  apply main_setup_inr in Hsetup as (-> & _).
  fold manifest_path in Hsave.
  destruct (main_metadata_effect args _ _ w1 _ w3
              (manifest_path_differs _) Hmeta) as [H2 _].
  fold manifest_path in H2.
  assert (string_last manifest_path <> Some "k"%char) as Hp
    by (unfold manifest_path;
        by rewrite (well_known_path_last _ "manifest.json" "n"%char)).
  pose proof (main_frames_untouched args _ metadata _ Hp _ _ _ Hframes) as H3.
  destruct (untouched_trans _ _ _ _ (untouched_trans _ _ _ _ H1 H2) H3)
    as [_ (events & Htrace & Hevents)].
  unfold save_manifest in Hsave. fold manifest_path in Hsave.
  apply write_file_inr in Hsave as [Hfile Htrace'].
  exists manifest, events.
  split; [by rewrite Htrace', Htrace, <- app_assoc |].
  split; [done |]. split; [done |].
  apply main_frames_inr in Hframes as (descriptors & _ & Hrun).
  by apply fetch_loop_entries in Hrun as (_ & _ & _ & _ & ? & ?).
Qed.

Lemma manifest_is_written_last_witness :
  exists manifest events,
    trace demo_w5 = trace demo_w0 ++ events
                    ++ [EvOpen "out/manifest.json";
                        EvWrite "out/manifest.json"
                                (FText (render (manifest_json manifest)))]
    /\ Forall (fun ev => touches "out/manifest.json" ev = false) events
    /\ files demo_w5 !! "out/manifest.json"
       = Some (FText (render (manifest_json manifest)))
    /\ m_datastoreId manifest = "ds"
    /\ m_imageSetId manifest = "is".
Proof.
  apply (manifest_is_written_last (E:=demo_env) example_args demo_w0 0 demo_w5).
  vm_compute. reflexivity.
Defined.

(** ** The region of the client *)

(** X15. The client is built for the region given with [--region] when
    that is a non-empty string; an absent or empty [--region] falls back
    to the environment variable [AWS_REGION], and to [us-east-1] when the
    variable is not set. *)
Theorem client_region_choice {E : Env} (args : Args) (w : world E)
    (output_path : Path) (w1 : world E) :
  main_setup args w = (inr output_path, w1) ->
  exists region_name,
    trace w1 = trace w ++ [EvMkdir (path_str output_path); EvClient region_name]
    /\ (forall r, region args = Some r -> r <> "" -> region_name = r)
    /\ (region args = None \/ region args = Some "" ->
        region_name = default "us-east-1" (environ_AWS_REGION E)).
Proof.
  unfold main_setup, get_medical_imaging_client. intros H. run_steps H.
  all: eexists; (split; [by rewrite <- app_assoc |]).
  all: split; [intros r Hr Hne | intros [Hr | Hr]]; simplify_eq; try done.
  all: match goal with
       | Heq : String.eqb _ _ = true |- _ => by apply String.eqb_eq in Heq
       | Heq : String.eqb _ _ = false |- _ => by apply String.eqb_neq in Heq
       end.
Qed.

Lemma client_region_choice_witness :
  trace demo_w1 = [EvMkdir "out"; EvClient "us-east-1"].
Proof.
  destruct (client_region_choice (E:=demo_env) example_args demo_w0 out_path
              demo_w1) as (region_name & Htrace & _ & Hdefault);
    [vm_compute; reflexivity |].
  rewrite Htrace, Hdefault by (by left). reflexivity.
Defined.

(* ===================================================================== *)
(** * The trigger *)
(* ===================================================================== *)

Lemma event_identifiers_get (event i d : json) :
  event_identifiers event = Some (i, d) ->
  (let* detail := py_get event "detail" (JDict []) in
   let* image_set_id := py_get detail "imageSetId" (JStr "") in
   let* datastore_id := py_get detail "datastoreId" (JStr "") in
   inr (image_set_id, datastore_id)) = inr (i, d).
Proof.
  destruct event as [| | | | | | ev]; simpl; try discriminate.
  unfold default.
  destruct (dict_lookup ev "detail") as [[| | | | | | detail] |]; simpl;
    try discriminate; intros [= <- <-];
    by repeat (destruct (dict_lookup _ _)).
Qed.

Lemma event_identifiers_none (event : json) :
  event_identifiers event = None ->
  exists e,
    (let* detail := py_get event "detail" (JDict []) in
     let* image_set_id := py_get detail "imageSetId" (JStr "") in
     let* datastore_id := py_get detail "datastoreId" (JStr "") in
     inr (image_set_id, datastore_id)) = inl e
    /\ exn_class e = "AttributeError".
Proof.
  destruct event as [| | | | | | ev]; simpl; eauto.
  unfold default.
  destruct (dict_lookup ev "detail") as [[| | | | | | detail] |]; simpl;
    try discriminate; eauto.
Qed.

(** X16. An event that lacks [imageSetId] or [datastoreId] in its
    ["detail"], or carries an empty (falsy) one, is answered with status
    400 and starts no pipeline execution; an event that carries both is
    not answered with 400. *)
Theorem handler_rejects_missing_identifiers {O : Orchestrator} (event : json)
    (w : lambda_world O) (pipeline_name : string) (h : orch_state O)
    (image_set_id datastore_id : json) :
  environ_PIPELINE_NAME O = Some pipeline_name ->
  boto3_sagemaker_client O (orch_hidden w) = (None, h) ->
  event_identifiers event = Some (image_set_id, datastore_id) ->
  (truthy image_set_id && truthy datastore_id = false ->
   handler event w
   = (inr (response 400 (JStr "Missing required parameters")),
      MkLambdaWorld h (started w)))
  /\ (truthy image_set_id && truthy datastore_id = true ->
      forall body w',
        handler event w <> (inr (response 400 body), w')).
Proof.
  intros Hname Hclient Hids. apply event_identifiers_get in Hids.
  unfold handler. rewrite Hname, Hclient, Hids. split.
  - intros Hfalsy.
    replace (negb (truthy image_set_id) || negb (truthy datastore_id))
      with true; [done |].
    by destruct (truthy image_set_id), (truthy datastore_id).
  - intros [-> ->]%andb_prop body w'. simpl.
    destruct (start_pipeline_execution O _ _ _ h) as [[e | answer] h'];
      [done |].
    by destruct (py_subscript answer "PipelineExecutionArn").
Qed.

Lemma handler_rejects_missing_identifiers_witness :
  handler (image_set_event (JStr "") (JStr "ds")) trigger_idle
  = (inr (response 400 (JStr "Missing required parameters")), trigger_idle).
Proof.
  destruct (handler_rejects_missing_identifiers (O:=trigger_env)
              (image_set_event (JStr "") (JStr "ds")) trigger_idle
              "ahi-mlops-pipeline" (0%nat : orch_state trigger_env)
              (JStr "") (JStr "ds"))
    as [H400 _]; [reflexivity .. |].
  apply H400. reflexivity.
Defined.

(** X17. For an event that carries both identifiers the handler starts
    exactly one execution of the configured pipeline, with the
    parameters [ImageSetId] and [DatastoreId] set to the identifiers of
    the event, and answers 200 with the ARN the service returns; if the
    service refuses, its exception escapes the handler. *)
Theorem handler_starts_one_execution {O : Orchestrator} (event : json)
    (w : lambda_world O) (pipeline_name : string) (h : orch_state O)
    (image_set_id datastore_id : json) :
  environ_PIPELINE_NAME O = Some pipeline_name ->
  boto3_sagemaker_client O (orch_hidden w) = (None, h) ->
  event_identifiers event = Some (image_set_id, datastore_id) ->
  truthy image_set_id && truthy datastore_id = true ->
  exists description outcome h',
    start_pipeline_execution O pipeline_name
      (pipeline_parameters image_set_id datastore_id) description h
    = (outcome, h')
    /\ snd (handler event w)
       = MkLambdaWorld h'
           (started w ++ [MkStartCall pipeline_name
                            (pipeline_parameters image_set_id datastore_id)
                            description])
    /\ (forall e, outcome = inl e -> fst (handler event w) = inl e)
    /\ (forall answer arn,
          outcome = inr (JDict answer) ->
          dict_lookup answer "PipelineExecutionArn" = Some arn ->
          fst (handler event w) = inr (response 200 arn)).
Proof.
  intros Hname Hclient Hids [Hi Hd]%andb_prop.
  apply event_identifiers_get in Hids.
  unfold handler. rewrite Hname, Hclient, Hids, Hi, Hd. simpl.
  destruct (start_pipeline_execution O _ _ _ h) as [outcome h'] eqn:Hstart.
  eexists _, outcome, h'. split; [exact Hstart |].
  destruct outcome as [e | answer]; simpl.
  - split; [done |]. split; [by intros e' [= ->] | done].
  - split; [by destruct (py_subscript answer _) |].
    split; [done |]. intros d arn [= ->] Harn. simpl. by rewrite Harn.
Qed.

Lemma handler_starts_one_execution_witness :
  handler (image_set_event (JStr "img-1") (JStr "ds-1")) trigger_idle
  = (inr (response 200
            (JStr "arn:aws:sagemaker:::pipeline/ahi-mlops-pipeline/execution/0")),
     MkLambdaWorld (1%nat : orch_state trigger_env)
       [MkStartCall "ahi-mlops-pipeline"
          (pipeline_parameters (JStr "img-1") (JStr "ds-1"))
          "Triggered by ImageSet img-1"]).
Proof.
  destruct (handler_starts_one_execution (O:=trigger_env)
              (image_set_event (JStr "img-1") (JStr "ds-1")) trigger_idle
              "ahi-mlops-pipeline" (0%nat : orch_state trigger_env)
              (JStr "img-1") (JStr "ds-1"))
    as (description & outcome & h' & _); [reflexivity .. |].
  vm_compute. reflexivity.
Defined.

(** X18. The handler answers only with status 400 or 200, and it never
    starts more than one execution; it starts none when it answers 400,
    when [PIPELINE_NAME] is not set (a [KeyError], raised before the
    client is built), or when the event or its ["detail"] is not an
    object (an [AttributeError], not a 400). *)
Theorem handler_never_starts_twice {O : Orchestrator} (event : json)
    (w : lambda_world O) :
  (started (snd (handler event w)) = started w
   \/ exists call, started (snd (handler event w)) = started w ++ [call])
  /\ (forall answer, fst (handler event w) = inr answer ->
        (answer = response 400 (JStr "Missing required parameters")
         /\ started (snd (handler event w)) = started w)
        \/ exists arn, answer = response 200 arn)
  /\ (environ_PIPELINE_NAME O = None ->
      handler event w = (inl (Exn "KeyError" "'PIPELINE_NAME'" true), w))
  /\ (event_identifiers event = None ->
      started (snd (handler event w)) = started w
      /\ exists e, fst (handler event w) = inl e).
Proof.
  unfold handler.
  destruct (environ_PIPELINE_NAME O) as [pipeline_name |]; simpl;
    [| split; [eauto | split; [done | split; [done | eauto]]]].
  destruct (boto3_sagemaker_client O (orch_hidden w)) as [[e | ] h]; simpl;
    [split; [eauto | split; [done | split; [done | eauto]]] |].
  destruct (event_identifiers event) as [[i d] |] eqn:Hids.
  - rewrite (event_identifiers_get _ _ _ Hids).
    destruct (negb (truthy i) || negb (truthy d)); simpl;
      [split; [eauto | split; [| done]]; intros answer [= <-]; eauto |].
    destruct (start_pipeline_execution O _ _ _ h) as [[e | answer] h']; simpl;
      [split; [eauto | done] |].
    destruct (py_subscript answer "PipelineExecutionArn") as [e | arn]; simpl;
      (split; [eauto | split; [| done]]); [done |].
    intros a [= <-]. eauto.
  - destruct (event_identifiers_none _ Hids) as (e & -> & _). simpl.
    split; [eauto | split; [done | split; [done | eauto]]].
Qed.

(* ===================================================================== *)
(** * The consumer of the manifest *)
(* ===================================================================== *)

(** X19. The manifest of a run whose loop completes is read by the
    training script as [Manifest: n frames from ImageSet i], [n] being
    the number of entries of the manifest (the descriptors processed)
    and [i] the image set of the command line.  A manifest that is not
    an object makes the script raise [AttributeError]; an object
    without the two fields reads as [0] frames of [unknown]. *)
Theorem training_reads_the_manifest {E : Env} (args : Args)
    (output_path : Path) (metadata : json) (w : world E) (manifest : Manifest)
    (w' : world E) (str : json -> string) :
  main_frames args output_path metadata w = (inr manifest, w') ->
  manifest_message str (manifest_json manifest)
  = inr ("Manifest: " +:+ pretty (Z.of_nat (length (m_frames manifest)))
         +:+ " frames from ImageSet " +:+ image_set_id args)
  /\ (forall v, is_dict v = false ->
        manifest_message str v = inl (AttributeError v "get"))
  /\ (forall d, dict_lookup d "totalFrames" = None ->
        dict_lookup d "imageSetId" = None ->
        manifest_message str (JDict d)
        = inr "Manifest: 0 frames from ImageSet unknown").
Proof.
  intros H. split; [| split].
  - apply main_frames_inr in H as (descriptors & _ & Hrun).
    apply fetch_loop_entries in Hrun as (entries & Hfr & Hall & Htot & _ & His).
    simpl in *. unfold manifest_message. simpl.
    rewrite Htot, His, Hfr. by rewrite (Forall2_length _ _ _ Hall).
  - intros v Hv. by destruct v.
  - intros d Ht Hi. unfold manifest_message. simpl. by rewrite Ht, Hi.
Qed.

Lemma training_reads_the_manifest_witness :
  manifest_message render expected_manifest
  = inr "Manifest: 3 frames from ImageSet is".
Proof.
  destruct (training_reads_the_manifest (E:=demo_env) example_args out_path
              three_frames demo_w3 expected_run demo_w4 render) as [H _];
    [vm_compute; reflexivity |].
  etrans; [exact H |]. vm_compute. reflexivity.
Defined.

(* ===================================================================== *)
(** * The output directory as a whole *)
(* ===================================================================== *)

Lemma grows_refl {E : Env} (w : world E) : grows w w.
Proof. by intros path. Qed.

Lemma grows_trans {E : Env} (w1 w2 w3 : world E) :
  grows w1 w2 -> grows w2 w3 -> grows w1 w3.
Proof. intros H1 H2 path Hp. by apply H2, H1. Qed.

Lemma write_file_grows {E : Env} (path : string) (content : file) :
  stable (E:=E) grows (write_file path content).
Proof.
  intros w r w' H. unfold write_file in H. run_steps H.
  all: intros p Hp; simpl; try done.
  all: destruct (decide (path = p)) as [-> | Hne];
    [by rewrite lookup_insert_eq | by rewrite !lookup_insert_ne by done].
Qed.

Lemma fetch_image_frame_grows {E : Env} (ds iset : string) (frame_id : json) :
  stable (E:=E) grows (fetch_image_frame ds iset frame_id).
Proof.
  intros w r w' H. unfold fetch_image_frame in H. run_steps H. by intros p.
Qed.

Ltac stable_grows :=
  repeat match goal with
         | |- stable _ (ret _) => apply stable_ret, grows_refl
         | |- stable _ (lift _) => apply stable_lift, grows_refl
         | |- stable _ (bind _ _) =>
             apply stable_bind; [apply grows_trans | | intros ?]
         | |- stable _ (try_except _ _) =>
             apply stable_try_except; [apply grows_trans | | intros ?]
         | |- stable _ (write_file _ _) => apply write_file_grows
         | |- stable _ (fetch_image_frame _ _ _) => apply fetch_image_frame_grows
         end.

Lemma fetch_loop_grows {E : Env} (args : Args) (output_path : Path)
    (frame_ids : list FrameInfo) :
  forall manifest,
    stable (E:=E) grows (fetch_loop args output_path frame_ids manifest).
Proof.
  induction frame_ids as [| frame_info rest IH]; intros manifest.
  - apply (stable_ret grows grows_refl).
  - change (stable (E:=E) grows
              (let! m1 := process_frame args output_path frame_info manifest in
               fetch_loop args output_path rest m1)).
    apply stable_bind; [apply grows_trans | | exact IH].
    unfold process_frame, try_frame, save_frame. stable_grows.
Qed.

(** X20. The fetcher never removes a file, and when the loop completes
    every descriptor whose entry is a success record has a file at its
    path in the output, even if a later frame wrote to the same path;
    entries and descriptors correspond one to one. *)
Theorem success_records_have_files {E : Env} (args : Args) (output_path : Path)
    (frame_ids : list FrameInfo) :
  forall (manifest : Manifest) (w : world E) manifest' w',
    fetch_loop args output_path frame_ids manifest w = (inr manifest', w') ->
    grows w w'
    /\ exists entries,
         m_frames manifest' = m_frames manifest ++ entries
         /\ Forall2 (fun d r =>
                       entry_for d r
                       /\ (is_success_record r = true ->
                           is_Some (files w' !! frame_path (E:=E) output_path d)))
                    frame_ids entries.
Proof.
  induction frame_ids as [| frame_info rest IH]; intros manifest w manifest' w' H.
  - injection H as <- <-. split; [apply grows_refl |].
    exists []. by rewrite app_nil_r.
  - pose proof (fetch_loop_grows args output_path (frame_info :: rest)
                  manifest _ _ _ H) as Hgrows.
    split; [done |].
    simpl in H. apply bind_inr in H as (m1 & w1 & Hstep & Hrest).
    pose proof (fetch_loop_grows args output_path rest m1 _ _ _ Hrest) as Hlater.
    apply IH in Hrest as (_ & entries & Hfr & Hall).
    apply process_frame_inr in Hstep as [[Htry _] | (e & _ & _ & ->)].
    + apply try_frame_inr in Htry as (data & w0 & _ & Hwrite & ->).
      apply write_file_inr in Hwrite as [Hfile _].
      eexists (_ :: entries). simpl in Hfr.
      split; [by rewrite Hfr, <- app_assoc |].
      constructor; [| done]. split; [apply success_record_entry |].
      intros _. apply Hlater. unfold frame_path. by rewrite Hfile.
    + exists (error_record frame_info e :: entries). simpl in Hfr.
      split; [by rewrite Hfr, <- app_assoc |].
      constructor; [| done]. split; [apply error_record_entry |].
      discriminate.
Qed.

Lemma success_records_have_files_witness :
  grows demo_w3 demo_w4
  /\ exists entries,
       m_frames expected_run = [] ++ entries
       /\ Forall2 (fun d r =>
                     entry_for d r
                     /\ (is_success_record r = true ->
                         is_Some (files demo_w4
                                    !! frame_path (E:=demo_env) out_path d)))
            [MkFrameInfo (JStr "f1") "s1" "i1"; MkFrameInfo (JStr "f2") "s1" "i1";
             MkFrameInfo (JStr "f3") "s1" "i1"] entries.
Proof.
  apply (success_records_have_files (E:=demo_env) example_args out_path
           [MkFrameInfo (JStr "f1") "s1" "i1"; MkFrameInfo (JStr "f2") "s1" "i1";
            MkFrameInfo (JStr "f3") "s1" "i1"]
           (MkManifest "ds" "is" 3 []) demo_w3 expected_run demo_w4).
  vm_compute. reflexivity.
Defined.

(** X21. The two documents a completed run leaves are consistent: when
    the parser inverts the serialiser on the metadata document,
    [metadata.json] reads back as the document the run enumerated, and
    the entries of the manifest correspond, one to one and in order, to
    the descriptors that the enumeration of that document yields (up to
    the limit). *)
Theorem outputs_are_consistent {E : Env} (args : Args) (w : world E)
    (output_path : Path) (metadata : json) (manifest : Manifest)
    (w4 w5 : world E) :
  loop_completes args w output_path metadata manifest w4 ->
  save_manifest output_path (manifest_json manifest) w4 = (inr tt, w5) ->
  json_loads E (json_dumps E metadata) = inr metadata ->
  exists descriptors,
    (let* document :=
       read_json w5 (path_str (path_join output_path "metadata.json")) in
     extract_frame_ids document) = inr descriptors
    /\ Forall2 entry_for (limit_frames (max_frames args) descriptors)
                         (m_frames manifest).
Proof.
  intros (w1 & w3 & Hsetup & Hmeta & Hframes) Hsave Hparse.
  assert (files w5 !! path_str (path_join output_path "metadata.json")
          = Some (FText (json_dumps E metadata))) as Hfile.
  { assert (string_last (path_str (path_join output_path "metadata.json"))
            <> Some "k"%char) as Hp
      by (by rewrite (well_known_path_last _ "metadata.json" "n"%char)).
    destruct (main_frames_untouched args output_path metadata _ Hp _ _ _ Hframes)
      as [Hloop _].
    destruct (write_file_untouched
                (path_str (path_join output_path "metadata.json"))
                (path_str (path_join output_path "manifest.json"))
                (FText (json_dumps E (manifest_json manifest)))
                (not_eq_sym (manifest_path_differs output_path)) _ _ _ Hsave)
      as [Hlast _].
    rewrite Hlast, Hloop. unfold main_metadata in Hmeta.
    apply bind_inr in Hmeta as (md & w2 & _ & Hmeta).
    apply bind_inr in Hmeta as ([] & w2' & Hwrite & Hret).
    injection Hret as <- <-. by apply write_file_inr in Hwrite as [? _]. }
  apply main_frames_inr in Hframes as (descriptors & Hextract & Hrun).
  apply fetch_loop_entries in Hrun as (entries & Hfr & Hall & _).
  exists descriptors. unfold read_json. rewrite Hfile, Hparse. simpl.
  split; [done |]. simpl in Hfr. by rewrite Hfr.
Qed.

Lemma outputs_are_consistent_witness :
  exists descriptors,
    (let* document :=
       read_json demo_w5 (path_str (path_join out_path "metadata.json")) in
     extract_frame_ids document) = inr descriptors
    /\ Forall2 entry_for (limit_frames (max_frames example_args) descriptors)
                         (m_frames expected_run).
Proof.
  apply (outputs_are_consistent (E:=demo_env) example_args demo_w0 out_path
           three_frames expected_run demo_w4 demo_w5).
  - exists demo_w1, demo_w3. split; [| split]; vm_compute; reflexivity.
  - vm_compute. reflexivity.
  - vm_compute. reflexivity.
Defined.
